(** * ConnectChat backend: a shallow embedding of [backend/server.py]

    The FastAPI handlers and the Socket.IO event handlers of the chat
    server are embedded as state-passing functions over a [world]: the
    Supabase tables, the two presence dictionaries of the module
    ([connected_users], [user_rooms]), the room membership kept by the
    Socket.IO server, and the trace of the writes and emits a handler
    performs.  A handler returns what the Python function returns, or the
    [HTTPException] it raises. *)

From Stdlib Require Import ZArith.
From stdpp Require Import base option list sorting gmap sets strings pretty.

Local Open Scope Z_scope.
Local Open Scope nat_scope.

Set Default Proof Using "Type".

(** ** Rows of the Supabase tables *)

Record user_row := {
  u_id : string;
  u_email : string;
  u_username : string;
  u_password_hash : string;
  u_avatar_url : option string;
  u_created_at : string }.

Record conversation_row := {
  c_id : string;
  c_name : option string;
  c_is_group : bool;
  c_created_by : string;
  c_created_at : string }.

Record participant_row := {
  p_id : string;
  p_conversation_id : string;
  p_user_id : string;
  p_joined_at : string }.

Record message_row := {
  m_id : string;
  m_conversation_id : string;
  m_sender_id : string;
  m_content : string;
  m_message_type : string;
  m_read_by : list string;
  m_created_at : string }.

Record chat_request_row := {
  r_id : string;
  r_sender_id : string;
  r_receiver_id : string;
  r_message : option string;
  r_status : string;
  r_is_group_invite : bool;
  r_conversation_id : option string;
  r_created_at : string }.

Record db := {
  users : list user_row;
  conversations : list conversation_row;
  conversation_participants : list participant_row;
  messages : list message_row;
  chat_requests : list chat_request_row }.

(** ** Pydantic models of the requests and responses *)

Record UserResponse := {
  ur_id : string;
  ur_email : string;
  ur_username : string;
  ur_avatar_url : option string;
  ur_is_online : bool;
  ur_created_at : string }.

Record MessageCreate := {
  mc_conversation_id : string;
  mc_content : string;
  mc_message_type : string }.

Record MessageResponse := {
  mr_id : string;
  mr_conversation_id : string;
  mr_sender_id : string;
  mr_sender_username : string;
  mr_sender_avatar : option string;
  mr_content : string;
  mr_message_type : string;
  mr_read_by : list string;
  mr_created_at : string }.

Record ConversationCreate := {
  cc_name : option string;
  cc_is_group : bool;
  cc_participant_ids : list string }.

Record ConversationResponse := {
  cr_id : string;
  cr_name : option string;
  cr_is_group : bool;
  cr_participants : list UserResponse;
  cr_last_message : option MessageResponse;
  cr_created_at : string;
  cr_created_by : string }.

Record ChatRequestCreate := {
  qc_receiver_id : string;
  qc_message : option string;
  qc_is_group_invite : bool;
  qc_conversation_id : option string }.

Record ChatRequestResponse := {
  qr_id : string;
  qr_sender_id : string;
  qr_sender_username : string;
  qr_sender_avatar : option string;
  qr_receiver_id : string;
  qr_message : option string;
  qr_status : string;
  qr_is_group_invite : bool;
  qr_conversation_id : option string;
  qr_created_at : string }.

(** JSON values carried verbatim in signalling payloads. *)
#[local] Unset Elimination Schemes.
Inductive json :=
  | JNull
  | JBool (b : bool)
  | JNum (z : Z)
  | JStr (s : string)
  | JArr (l : list json)
  | JObj (l : list (string * json)).
#[local] Set Elimination Schemes.

Record WebRTCSignal := {
  ws_type : string;
  ws_target_user_id : string;
  ws_conversation_id : string;
  ws_signal_data : list (string * json) }.

(** The [data] dictionary a Socket.IO client sends with an event: a JSON
    object whose fields are strings; [data.get(k)] is [data !! k]. *)
Abbreviation event_data := (gmap string string).

(** ** Effects *)

(** What [sio.emit] is given as its data. *)
Inductive payload :=
  | P_message (m : MessageResponse)
  | P_message_read (message_id user_id : string)
  | P_chat_request (r : ChatRequestResponse)
  | P_user (user_id : string)
  | P_webrtc_signal (type from_user_id conversation_id : string)
      (signal_data : list (string * json))
  | P_incoming_call (caller_id : option string) (caller_username : string)
      (caller_avatar : option string) (conversation_id : option string)
      (call_type : string)
  | P_data (data : event_data).

(** The trace of a handler: the writes sent to the record store and the
    events handed to [sio.emit], oldest first. *)
Inductive effect :=
  | Insert (table : string)
  | Update (table : string)
  | Emit (event : string) (data : payload) (room : option string)
      (skip_sid : option string).

Record world := {
  supabase : db;
  connected_users : list (string * string);    (* user_id -> sid *)
  user_rooms : list (string * list string);    (* user_id -> [room_ids] *)
  sio_rooms : gset (string * string);          (* (room, sid) memberships *)
  uuid_calls : nat;                            (* calls of uuid.uuid4 so far *)
  clock_calls : nat;                           (* calls of datetime.now so far *)
  trace : list effect }.

(** ** Python dictionaries, in insertion order *)

Section dict.
Context {V : Type}.

Fixpoint dict_get (k : string) (d : list (string * V)) : option V :=
  match d with
  | [] => None
  | (k', v) :: d' => if decide (k' = k) then Some v else dict_get k d'
  end.

Definition dict_in (k : string) (d : list (string * V)) : bool :=
  bool_decide (is_Some (dict_get k d)).

(** [d[k] = v]: an existing key keeps its place, a new one goes last. *)
Fixpoint dict_set (k : string) (v : V) (d : list (string * V))
  : list (string * V) :=
  match d with
  | [] => [(k, v)]
  | (k', v') :: d' =>
      if decide (k' = k) then (k, v) :: d' else (k', v') :: dict_set k v d'
  end.

(** [del d[k]] *)
Fixpoint dict_del (k : string) (d : list (string * V)) : list (string * V) :=
  match d with
  | [] => []
  | (k', v') :: d' =>
      if decide (k' = k) then d' else (k', v') :: dict_del k d'
  end.
End dict.

(** Truthiness of a Python string and of an optional string. *)
Definition truthy (s : string) : bool := negb (bool_decide (s = EmptyString)).

Definition truthy_opt (o : option string) : bool :=
  match o with
  | Some s => truthy s
  | None => false
  end.

(** ** Handlers: state passing with exceptions *)

Inductive outcome (A : Type) :=
  | Return (a : A)
  | HTTPException (status_code : nat) (detail : string).
Arguments Return {A} a.
Arguments HTTPException {A} status_code detail.

Definition handler (A : Type) : Type := world → outcome A * world.

Definition ret {A} (a : A) : handler A := λ w, (Return a, w).

Definition raise {A} (status_code : nat) (detail : string) : handler A :=
  λ w, (HTTPException status_code detail, w).

Definition bind {A B} (m : handler A) (k : A → handler B) : handler B :=
  λ w, match m w with
       | (Return a, w') => k a w'
       | (HTTPException c d, w') => (HTTPException c d, w')
       end.

Notation "x <- m ;; k" := (bind m (λ x, k))
  (at level 100, m at next level, right associativity).
Notation "m ;;; k" := (bind m (λ _, k))
  (at level 100, right associativity).

(** The error taxonomy of the specification, as the exceptions of the code. *)
Definition AuthzError {A} : outcome A :=
  HTTPException 403 "Not a participant of this conversation".
Definition StateError {A} : outcome A :=
  HTTPException 400 "Request already processed".
Definition ConflictError {A} : outcome A :=
  HTTPException 400 "Request already sent".
Definition StoreError {A} (detail : string) : outcome A :=
  HTTPException 500 detail.
Definition NotFoundError {A} (detail : string) : outcome A :=
  HTTPException 404 detail.

(** An exception that the handler does not catch ends the handler where it
    is raised.  The framework answers an HTTP request with status 500,
    "Internal Server Error"; a Socket.IO event gets no answer. *)
Definition uncaught {A} : handler A := raise 500 "Internal Server Error".

(** ** Primitive actions *)

Definition with_supabase (d : db) (w : world) : world :=
  {| supabase := d; connected_users := connected_users w;
     user_rooms := user_rooms w; sio_rooms := sio_rooms w;
     uuid_calls := uuid_calls w; clock_calls := clock_calls w;
     trace := trace w |}.

Definition with_connected_users (cu : list (string * string)) (w : world)
  : world :=
  {| supabase := supabase w; connected_users := cu;
     user_rooms := user_rooms w; sio_rooms := sio_rooms w;
     uuid_calls := uuid_calls w; clock_calls := clock_calls w;
     trace := trace w |}.

Definition with_user_rooms (ur : list (string * list string)) (w : world)
  : world :=
  {| supabase := supabase w; connected_users := connected_users w;
     user_rooms := ur; sio_rooms := sio_rooms w;
     uuid_calls := uuid_calls w; clock_calls := clock_calls w;
     trace := trace w |}.

Definition with_sio_rooms (rs : gset (string * string)) (w : world) : world :=
  {| supabase := supabase w; connected_users := connected_users w;
     user_rooms := user_rooms w; sio_rooms := rs;
     uuid_calls := uuid_calls w; clock_calls := clock_calls w;
     trace := trace w |}.

Definition log (e : effect) (w : world) : world :=
  {| supabase := supabase w; connected_users := connected_users w;
     user_rooms := user_rooms w; sio_rooms := sio_rooms w;
     uuid_calls := uuid_calls w; clock_calls := clock_calls w;
     trace := trace w ++ [e] |}.

(** [supabase.table(..).select(..)...execute().data]: a read of the store. *)
Definition query {A} (f : db → A) : handler A :=
  λ w, (Return (f (supabase w)), w).

(** A read of the module's globals. *)
Definition global {A} (f : world → A) : handler A :=
  λ w, (Return (f w), w).

(** [await sio.emit(event, data, room=room, skip_sid=skip_sid)] *)
Definition emit (event : string) (data : payload) (room : option string)
    (skip_sid : option string) : handler unit :=
  λ w, (Return tt, log (Emit event data room skip_sid) w).

Definition insert_conversation (row : conversation_row) : handler unit :=
  λ w, let d := supabase w in
       (Return tt,
        log (Insert "conversations")
          (with_supabase
             {| users := users d; conversations := conversations d ++ [row];
                conversation_participants := conversation_participants d;
                messages := messages d; chat_requests := chat_requests d |} w)).

Definition insert_participant (row : participant_row) : handler unit :=
  λ w, let d := supabase w in
       (Return tt,
        log (Insert "conversation_participants")
          (with_supabase
             {| users := users d; conversations := conversations d;
                conversation_participants :=
                  conversation_participants d ++ [row];
                messages := messages d; chat_requests := chat_requests d |} w)).

(** An insert whose answer the caller inspects.  [stored] is the store's
    part: with [stored = true] the row is written and comes back in
    [result.data]; with [stored = false] nothing is written and
    [result.data] is empty. *)
Definition insert_message (stored : bool) (row : message_row)
  : handler (list message_row) :=
  λ w, let d := supabase w in
       if stored then
         (Return [row],
          log (Insert "messages")
            (with_supabase
               {| users := users d; conversations := conversations d;
                  conversation_participants := conversation_participants d;
                  messages := messages d ++ [row];
                  chat_requests := chat_requests d |} w))
       else (Return [], log (Insert "messages") w).

Definition insert_chat_request (stored : bool) (row : chat_request_row)
  : handler (list chat_request_row) :=
  λ w, let d := supabase w in
       if stored then
         (Return [row],
          log (Insert "chat_requests")
            (with_supabase
               {| users := users d; conversations := conversations d;
                  conversation_participants := conversation_participants d;
                  messages := messages d;
                  chat_requests := chat_requests d ++ [row] |} w))
       else (Return [], log (Insert "chat_requests") w).

Definition set_read_by (read_by : list string) (m : message_row)
  : message_row :=
  {| m_id := m_id m; m_conversation_id := m_conversation_id m;
     m_sender_id := m_sender_id m; m_content := m_content m;
     m_message_type := m_message_type m; m_read_by := read_by;
     m_created_at := m_created_at m |}.

(** [table('messages').update({'read_by': read_by}).eq('id', msg_id)] *)
Definition update_read_by (read_by : list string) (msg_id : string)
  : handler unit :=
  λ w, let d := supabase w in
       (Return tt,
        log (Update "messages")
          (with_supabase
             {| users := users d; conversations := conversations d;
                conversation_participants := conversation_participants d;
                messages :=
                  (λ m, if decide (m_id m = msg_id)
                        then set_read_by read_by m else m) <$> messages d;
                chat_requests := chat_requests d |} w)).

Definition set_status (status : string) (r : chat_request_row)
  : chat_request_row :=
  {| r_id := r_id r; r_sender_id := r_sender_id r;
     r_receiver_id := r_receiver_id r; r_message := r_message r;
     r_status := status; r_is_group_invite := r_is_group_invite r;
     r_conversation_id := r_conversation_id r;
     r_created_at := r_created_at r |}.

(** [table('chat_requests').update({'status': status}).eq('id', req_id)] *)
Definition update_status (status : string) (req_id : string) : handler unit :=
  λ w, let d := supabase w in
       (Return tt,
        log (Update "chat_requests")
          (with_supabase
             {| users := users d; conversations := conversations d;
                conversation_participants := conversation_participants d;
                messages := messages d;
                chat_requests :=
                  (λ r, if decide (r_id r = req_id)
                        then set_status status r else r) <$> chat_requests d |}
             w)).

(** [.order('created_at', desc=True)]: newest first. *)
Definition newer_first (m1 m2 : message_row) : Prop :=
  String.le (m_created_at m2) (m_created_at m1).

Global Instance newer_first_dec : RelDecision newer_first.
Proof. intros m1 m2. unfold newer_first. apply _. Defined.

Definition order_created_at_desc (rows : list message_row)
  : list message_row :=
  merge_sort newer_first rows.

(** [.range(start, stop)] asks the store for the rows at positions
    [start..stop] of the result, both ends included, that is for
    [stop - start + 1] rows from position [start] on.  The store answers for
    a position from 0 on and a number of rows that is not negative; any
    other request it refuses ([None]). *)
Definition range {A} (start stop : Z) (rows : list A) : option (list A) :=
  if decide (0 ≤ start ∧ 0 ≤ stop - start + 1)%Z
  then Some (take (Z.to_nat (stop - start + 1)) (drop (Z.to_nat start) rows))
  else None.

(** [list(set(xs))] *)
Definition list_set (xs : list string) : list string :=
  elements (list_to_set xs : gset string).

(** ** The server *)

Section server.
(** The surroundings of the process: the value of the [n]-th call of
    [str(uuid.uuid4())], of the [n]-th call of
    [datetime.now(timezone.utc).isoformat()], and the JWT check. *)
Variable uuid : nat → string.
Variable now : nat → string.
Variable verify_token : string → option string.

Definition uuid4 : handler string :=
  λ w, (Return (uuid (uuid_calls w)),
        {| supabase := supabase w; connected_users := connected_users w;
           user_rooms := user_rooms w; sio_rooms := sio_rooms w;
           uuid_calls := S (uuid_calls w); clock_calls := clock_calls w;
           trace := trace w |}).

Definition utcnow : handler string :=
  λ w, (Return (now (clock_calls w)),
        {| supabase := supabase w; connected_users := connected_users w;
           user_rooms := user_rooms w; sio_rooms := sio_rooms w;
           uuid_calls := uuid_calls w; clock_calls := S (clock_calls w);
           trace := trace w |}).

(** *** Helper functions *)

Definition format_user (cu : list (string * string)) (user : user_row)
  : UserResponse :=
  {| ur_id := u_id user; ur_email := u_email user;
     ur_username := u_username user; ur_avatar_url := u_avatar_url user;
     ur_is_online := dict_in (u_id user) cu;
     ur_created_at := u_created_at user |}.

(** A message row has no [sender_username] and no [sender_avatar] key, so
    without [sender_info] the defaults of [msg.get] are taken. *)
Definition format_message (msg : message_row) (sender_info : option user_row)
  : MessageResponse :=
  {| mr_id := m_id msg; mr_conversation_id := m_conversation_id msg;
     mr_sender_id := m_sender_id msg;
     mr_sender_username :=
       match sender_info with
       | Some s => u_username s
       | None => "Unknown"
       end;
     mr_sender_avatar :=
       match sender_info with
       | Some s => u_avatar_url s
       | None => None
       end;
     mr_content := m_content msg; mr_message_type := m_message_type msg;
     mr_read_by := m_read_by msg; mr_created_at := m_created_at msg |}.

(** *** Conversation endpoints *)

Definition get_conversation (conv_id user_id : string)
  : handler ConversationResponse :=
  conv_result <- query (λ d, filter (λ c, c_id c = conv_id) (conversations d)) ;;
  match conv_result with
  | [] => raise 404 "Conversation not found"
  | conv :: _ =>
      participants_result <-
        query (λ d, filter (λ p, p_conversation_id p = conv_id)
                      (conversation_participants d)) ;;
      let participant_ids := p_user_id <$> participants_result in
      if bool_decide (user_id ∉ participant_ids)
      then raise 403 "Not a participant of this conversation"
      else
        users_result <-
          query (λ d, filter (λ u, u_id u ∈ participant_ids) (users d)) ;;
        cu <- global connected_users ;;
        let participants := format_user cu <$> users_result in
        last_msg_result <-
          query (λ d, take 1 (order_created_at_desc
                                (filter (λ m, m_conversation_id m = conv_id)
                                   (messages d)))) ;;
        let last_message :=
          match last_msg_result with
          | [] => None
          | msg :: _ =>
              let sender_info :=
                head (filter (λ u, u_id u = m_sender_id msg) users_result) in
              Some (format_message msg sender_info)
          end in
        ret {| cr_id := c_id conv; cr_name := c_name conv;
               cr_is_group := c_is_group conv;
               cr_participants := participants;
               cr_last_message := last_message;
               cr_created_at := c_created_at conv;
               cr_created_by := c_created_by conv |}
  end.

(** The loop of [create_conversation] over the caller's participant rows:
    the id of the first row whose conversation is a non-group one with
    exactly the wanted participants. *)
Fixpoint find_private (d : db) (all_participants : list string)
    (existing : list participant_row) : option string :=
  match existing with
  | [] => None
  | ep :: rest =>
      let check :=
        filter (λ c, c_id c = p_conversation_id ep ∧ c_is_group c = false)
          (conversations d) in
      match check with
      | [] => find_private d all_participants rest
      | _ :: _ =>
          let participant_ids :=
            p_user_id <$>
              filter (λ p, p_conversation_id p = p_conversation_id ep)
                (conversation_participants d) in
          if decide ((list_to_set participant_ids : gset string)
                     = list_to_set all_participants)
          then Some (p_conversation_id ep)
          else find_private d all_participants rest
      end
  end.

(** The loop that adds one participant row per member. *)
Fixpoint add_participants (conv_id : string) (pids : list string)
  : handler unit :=
  match pids with
  | [] => ret tt
  | pid :: rest =>
      row_id <- uuid4 ;;
      joined_at <- utcnow ;;
      insert_participant
        {| p_id := row_id; p_conversation_id := conv_id; p_user_id := pid;
           p_joined_at := joined_at |} ;;;
      add_participants conv_id rest
  end.

Definition create_conversation (conv_data : ConversationCreate)
    (user_id : string) : handler ConversationResponse :=
  conv_id <- uuid4 ;;
  let all_participants := list_set (user_id :: cc_participant_ids conv_data) in
  found <-
    (if negb (cc_is_group conv_data)
        && bool_decide (length all_participants = 2)
     then
       query (λ d, find_private d all_participants
                     (filter (λ p, p_user_id p = user_id)
                        (conversation_participants d)))
     else ret None) ;;
  match found with
  | Some existing_id => get_conversation existing_id user_id
  | None =>
      created_at <- utcnow ;;
      insert_conversation
        {| c_id := conv_id;
           c_name := if cc_is_group conv_data then cc_name conv_data else None;
           c_is_group := cc_is_group conv_data;
           c_created_by := user_id; c_created_at := created_at |} ;;;
      add_participants conv_id all_participants ;;;
      get_conversation conv_id user_id
  end.

(** *** Message endpoints *)

Definition send_message (stored : bool) (msg_data : MessageCreate)
    (user_id : string) : handler MessageResponse :=
  participant <-
    query (λ d, filter (λ p, p_conversation_id p = mc_conversation_id msg_data
                             ∧ p_user_id p = user_id)
                  (conversation_participants d)) ;;
  match participant with
  | [] => raise 403 "Not a participant of this conversation"
  | _ :: _ =>
      sender_result <- query (λ d, filter (λ u, u_id u = user_id) (users d)) ;;
      let sender := head sender_result in
      msg_id <- uuid4 ;;
      created_at <- utcnow ;;
      let new_message :=
        {| m_id := msg_id;
           m_conversation_id := mc_conversation_id msg_data;
           m_sender_id := user_id; m_content := mc_content msg_data;
           m_message_type := mc_message_type msg_data;
           m_read_by := [user_id]; m_created_at := created_at |} in
      result <- insert_message stored new_message ;;
      match result with
      | [] => raise 500 "Failed to send message"
      | row :: _ =>
          let message_response := format_message row sender in
          emit "new_message" (P_message message_response)
            (Some (mc_conversation_id msg_data)) None ;;;
          ret message_response
      end
  end.

Definition get_messages (conv_id : string) (limit offset : Z)
    (user_id : string) : handler (list MessageResponse) :=
  participant <-
    query (λ d, filter (λ p, p_conversation_id p = conv_id
                             ∧ p_user_id p = user_id)
                  (conversation_participants d)) ;;
  match participant with
  | [] => raise 403 "Not a participant of this conversation"
  | _ :: _ =>
      answered <-
        query (λ d, range offset (offset + limit - 1)
                      (order_created_at_desc
                         (filter (λ m, m_conversation_id m = conv_id)
                            (messages d)))) ;;
      match answered with
      | None => uncaught
      | Some messages_result =>
          match messages_result with
          | [] => ret []
          | _ :: _ =>
              let sender_ids := list_set (m_sender_id <$> messages_result) in
              senders_result <-
                query (λ d, filter (λ u, u_id u ∈ sender_ids) (users d)) ;;
              let senders_map : gmap string user_row :=
                foldl (λ m u, <[u_id u := u]> m) ∅ senders_result in
              let messages :=
                (λ m, format_message m (senders_map !! m_sender_id m))
                  <$> messages_result in
              ret (reverse messages)
          end
      end
  end.

Definition mark_message_read (msg_id user_id : string) : handler string :=
  msg_result <- query (λ d, filter (λ m, m_id m = msg_id) (messages d)) ;;
  match msg_result with
  | [] => raise 404 "Message not found"
  | msg :: _ =>
      let read_by := m_read_by msg in
      (if bool_decide (user_id ∉ read_by)
       then
         let read_by := read_by ++ [user_id] in
         update_read_by read_by msg_id ;;;
         emit "message_read" (P_message_read msg_id user_id)
           (Some (m_conversation_id msg)) None
       else ret tt) ;;;
      ret "ok"
  end.

(** *** Chat request endpoints *)

Definition create_chat_request (stored : bool) (req_data : ChatRequestCreate)
    (user_id : string) : handler ChatRequestResponse :=
  existing <-
    query (λ d, filter (λ r, r_sender_id r = user_id
                             ∧ r_receiver_id r = qc_receiver_id req_data
                             ∧ r_status r = "pending")
                  (chat_requests d)) ;;
  match existing with
  | _ :: _ => raise 400 "Request already sent"
  | [] =>
      sender_result <- query (λ d, filter (λ u, u_id u = user_id) (users d)) ;;
      let sender := head sender_result in
      req_id <- uuid4 ;;
      created_at <- utcnow ;;
      let new_request :=
        {| r_id := req_id; r_sender_id := user_id;
           r_receiver_id := qc_receiver_id req_data;
           r_message := qc_message req_data; r_status := "pending";
           r_is_group_invite := qc_is_group_invite req_data;
           r_conversation_id := qc_conversation_id req_data;
           r_created_at := created_at |} in
      result <- insert_chat_request stored new_request ;;
      match result with
      | [] => raise 500 "Failed to create request"
      | row :: _ =>
          let response :=
            {| qr_id := r_id row; qr_sender_id := user_id;
               qr_sender_username :=
                 match sender with
                 | Some s => u_username s
                 | None => "Unknown"
                 end;
               qr_sender_avatar :=
                 match sender with
                 | Some s => u_avatar_url s
                 | None => None
                 end;
               qr_receiver_id := qc_receiver_id req_data;
               qr_message := qc_message req_data; qr_status := "pending";
               qr_is_group_invite := qc_is_group_invite req_data;
               qr_conversation_id := qc_conversation_id req_data;
               qr_created_at := r_created_at row |} in
          cu <- global connected_users ;;
          match dict_get (qc_receiver_id req_data) cu with
          | Some sid =>
              emit "new_chat_request" (P_chat_request response) (Some sid)
                None
          | None => ret tt
          end ;;;
          ret response
      end
  end.

Definition accept_chat_request (req_id user_id : string)
  : handler ConversationResponse :=
  req_result <-
    query (λ d, filter (λ r, r_id r = req_id ∧ r_receiver_id r = user_id)
                  (chat_requests d)) ;;
  match req_result with
  | [] => raise 404 "Request not found"
  | req :: _ =>
      if bool_decide (r_status req ≠ "pending")
      then raise 400 "Request already processed"
      else
        update_status "accepted" req_id ;;;
        let private :=
          create_conversation
            {| cc_name := None; cc_is_group := false;
               cc_participant_ids := [r_sender_id req] |} user_id in
        match r_conversation_id req with
        | Some conversation_id =>
            if r_is_group_invite req && truthy conversation_id
            then
              row_id <- uuid4 ;;
              joined_at <- utcnow ;;
              insert_participant
                {| p_id := row_id; p_conversation_id := conversation_id;
                   p_user_id := user_id; p_joined_at := joined_at |} ;;;
              get_conversation conversation_id user_id
            else private
        | None => private
        end
  end.

Definition reject_chat_request (req_id user_id : string) : handler string :=
  req_result <-
    query (λ d, filter (λ r, r_id r = req_id ∧ r_receiver_id r = user_id)
                  (chat_requests d)) ;;
  match req_result with
  | [] => raise 404 "Request not found"
  | _ :: _ =>
      update_status "rejected" req_id ;;;
      ret "rejected"
  end.

(** *** WebRTC signalling *)

Definition webrtc_signal (signal : WebRTCSignal) (user_id : string)
  : handler string :=
  cu <- global connected_users ;;
  match dict_get (ws_target_user_id signal) cu with
  | Some sid =>
      emit "webrtc_signal"
        (P_webrtc_signal (ws_type signal) user_id
           (ws_conversation_id signal) (ws_signal_data signal))
        (Some sid) None ;;;
      ret "sent"
  | None => ret "user_offline"
  end.

(** *** Socket.IO events *)

(** The loop over [connected_users.items()] that stops at the first user
    bound to [sid]. *)
Fixpoint user_of_sid (sid : string) (items : list (string * string))
  : option string :=
  match items with
  | [] => None
  | (uid, s) :: rest =>
      if decide (s = sid) then Some uid else user_of_sid sid rest
  end.

Definition disconnect (sid : string) : handler unit :=
  user_to_remove <- global (λ w, user_of_sid sid (connected_users w)) ;;
  match user_to_remove with
  | Some uid =>
      if truthy uid
      then
        (λ w, (Return tt,
               with_connected_users (dict_del uid (connected_users w)) w)) ;;;
        emit "user_offline" (P_user uid) None None ;;;
        (λ w, (Return tt,
               if dict_in uid (user_rooms w)
               then with_user_rooms (dict_del uid (user_rooms w)) w
               else w))
      else ret tt
  | None => ret tt
  end.

(** What [authenticate] answers: [{'error': ..}] or
    [{'status': 'authenticated', 'user_id': ..}]. *)
Inductive auth_reply :=
  | auth_error (error : string)
  | authenticated (user_id : string).

Definition authenticate (sid : string) (data : event_data)
  : handler auth_reply :=
  match data !! "token" with
  | Some token =>
      if truthy token
      then
        match verify_token token with
        | Some user_id =>
            if truthy user_id
            then
              (λ w, (Return tt,
                     with_user_rooms (dict_set user_id [] (user_rooms w))
                       (with_connected_users
                          (dict_set user_id sid (connected_users w)) w))) ;;;
              emit "user_online" (P_user user_id) None None ;;;
              ret (authenticated user_id)
            else ret (auth_error "Invalid token")
        | None => ret (auth_error "Invalid token")
        end
      else ret (auth_error "No token provided")
  | None => ret (auth_error "No token provided")
  end.

(** [await sio.enter_room(sid, room_id)].  Whether Socket.IO lets the
    socket into the room is Socket.IO's part: with [entered = true] the
    socket is in the room afterwards; with [entered = false] the call raises
    and nothing is changed.  The handler does not catch that exception. *)
Definition enter_room (entered : bool) (sid room_id : string)
  : handler unit :=
  if entered
  then λ w, (Return tt, with_sio_rooms ({[ (room_id, sid) ]} ∪ sio_rooms w) w)
  else uncaught.

Definition join_room (entered : bool) (sid : string) (data : event_data)
  : handler unit :=
  match data !! "room_id" with
  | Some room_id =>
      if truthy room_id
      then
        enter_room entered sid room_id ;;;
        (λ w, (Return tt,
               match user_of_sid sid (connected_users w) with
               | Some uid =>
                   let rooms := default [] (dict_get uid (user_rooms w)) in
                   with_user_rooms
                     (dict_set uid
                        (if bool_decide (room_id ∉ rooms)
                         then rooms ++ [room_id] else rooms)
                        (user_rooms w)) w
               | None => w
               end))
      else ret tt
  | None => ret tt
  end.

Definition leave_room (sid : string) (data : event_data) : handler unit :=
  match data !! "room_id" with
  | Some room_id =>
      if truthy room_id
      then λ w, (Return tt,
                 with_sio_rooms (sio_rooms w ∖ {[ (room_id, sid) ]}) w)
      else ret tt
  | None => ret tt
  end.

Definition call_user (sid : string) (data : event_data) : handler string :=
  let target_user_id := data !! "target_user_id" in
  let caller_id := data !! "caller_id" in
  let conversation_id := data !! "conversation_id" in
  let call_type := default "video" (data !! "call_type") in
  cu <- global connected_users ;;
  match target_user_id ≫= (λ t, dict_get t cu) with
  | Some target_sid =>
      caller_result <-
        query (λ d, filter (λ u, Some (u_id u) = caller_id) (users d)) ;;
      let caller := head caller_result in
      emit "incoming_call"
        (P_incoming_call caller_id
           match caller with
           | Some c => u_username c
           | None => "Unknown"
           end
           match caller with
           | Some c => u_avatar_url c
           | None => None
           end
           conversation_id call_type)
        (Some target_sid) None ;;;
      ret "ringing"
  | None => ret "user_offline"
  end.

(** *** The server as a transition system *)

Inductive request :=
  | CreateConversation (conv_data : ConversationCreate) (user_id : string)
  | GetConversation (conv_id user_id : string)
  | SendMessage (stored : bool) (msg_data : MessageCreate) (user_id : string)
  | GetMessages (conv_id : string) (limit offset : Z) (user_id : string)
  | MarkMessageRead (msg_id user_id : string)
  | CreateChatRequest (stored : bool) (req_data : ChatRequestCreate)
      (user_id : string)
  | AcceptChatRequest (req_id user_id : string)
  | RejectChatRequest (req_id user_id : string)
  | WebrtcSignalPost (signal : WebRTCSignal) (user_id : string)
  | Disconnect (sid : string)
  | Authenticate (sid : string) (data : event_data)
  | JoinRoom (entered : bool) (sid : string) (data : event_data)
  | LeaveRoom (sid : string) (data : event_data)
  | CallUser (sid : string) (data : event_data).

(** The world after a request is served, whatever it answered. *)
Definition serve (r : request) (w : world) : world :=
  match r with
  | CreateConversation c u => (create_conversation c u w).2
  | GetConversation c u => (get_conversation c u w).2
  | SendMessage s m u => (send_message s m u w).2
  | GetMessages c l o u => (get_messages c l o u w).2
  | MarkMessageRead m u => (mark_message_read m u w).2
  | CreateChatRequest s q u => (create_chat_request s q u w).2
  | AcceptChatRequest q u => (accept_chat_request q u w).2
  | RejectChatRequest q u => (reject_chat_request q u w).2
  | WebrtcSignalPost s u => (webrtc_signal s u w).2
  | Disconnect sid => (disconnect sid w).2
  | Authenticate sid data => (authenticate sid data w).2
  | JoinRoom e sid data => (join_room e sid data w).2
  | LeaveRoom sid data => (leave_room sid data w).2
  | CallUser sid data => (call_user sid data w).2
  end.

(** A freshly started server over a store that holds only users. *)
Definition boot (registered : list user_row) : world :=
  {| supabase := {| users := registered; conversations := [];
                    conversation_participants := []; messages := [];
                    chat_requests := [] |};
     connected_users := []; user_rooms := []; sio_rooms := ∅;
     uuid_calls := 0; clock_calls := 0; trace := [] |}.

Definition run (rs : list request) (w : world) : world :=
  foldl (λ w r, serve r w) w rs.

(** *** Predicates *)

Definition pending_between (sender receiver : string) (d : db)
  : list chat_request_row :=
  filter (λ r, r_sender_id r = sender ∧ r_receiver_id r = receiver
               ∧ r_status r = "pending") (chat_requests d).

(** At most one pending request per ordered (sender, receiver) pair. *)
Definition pending_unique (d : db) : Prop :=
  ∀ sender receiver, length (pending_between sender receiver d) ≤ 1.

Definition terminal (status : string) : Prop :=
  status = "accepted" ∨ status = "rejected".

Definition is_participant (d : db) (conv_id user_id : string) : Prop :=
  ∃ p, p ∈ conversation_participants d
       ∧ p_conversation_id p = conv_id ∧ p_user_id p = user_id.

(** Oldest first, by the ordering key of the store. *)
Definition chronological (ms : list MessageResponse) : Prop :=
  StronglySorted (λ a b, String.le (mr_created_at a) (mr_created_at b)) ms.

(** No user of the registry is bound to [sid]. *)
Definition unbound (sid : string) (cu : list (string * string)) : Prop :=
  ∀ uid s, (uid, s) ∈ cu → s ≠ sid.

(** The connection registry and the store are what they were. *)
Definition registry_kept (w w' : world) : Prop :=
  connected_users w' = connected_users w
  ∧ user_rooms w' = user_rooms w
  ∧ supabase w' = supabase w.

(** An id that no conversation and no participant row of the store uses. *)
Definition fresh_id (id : string) (d : db) : Prop :=
  (id ∉ c_id <$> conversations d)
  ∧ (id ∉ p_conversation_id <$> conversation_participants d).

(** The ids of the users that have a participant row in a conversation. *)
Definition participants_of (d : db) (conv_id : string) : gset string :=
  list_to_set
    (p_user_id <$> filter (λ p, p_conversation_id p = conv_id)
                     (conversation_participants d)).


(** ** The remaining endpoints and events *)

(** [GET /api/users/{target_user_id}] *)
Definition get_user (target_user_id user_id : string) : handler UserResponse :=
  result <- query (λ d, filter (λ u, u_id u = target_user_id) (users d)) ;;
  match result with
  | [] => raise 404 "User not found"
  | user :: _ =>
      cu <- global connected_users ;;
      ret (format_user cu user)
  end.

(** [GET /api/auth/me] *)
Definition get_me (user_id : string) : handler UserResponse :=
  result <- query (λ d, filter (λ u, u_id u = user_id) (users d)) ;;
  match result with
  | [] => raise 404 "User not found"
  | user :: _ =>
      cu <- global connected_users ;;
      ret (format_user cu user)
  end.

(** What a conversation is sorted by in the list of a user: the time of its
    last message, or of its creation when it has none. *)
Definition activity (c : ConversationResponse) : string :=
  match cr_last_message c with
  | Some m => mr_created_at m
  | None => cr_created_at c
  end.

(** The loop of [get_conversations]: a conversation whose view raises is
    skipped by the bare [except]. *)
Fixpoint collect_conversations (conv_ids : list string) (user_id : string)
  : handler (list ConversationResponse) :=
  match conv_ids with
  | [] => ret []
  | conv_id :: rest =>
      λ w, match get_conversation conv_id user_id w with
           | (Return conv, w') =>
               (conversations <- collect_conversations rest user_id ;;
                ret (conv :: conversations)) w'
           | (HTTPException _ _, w') => collect_conversations rest user_id w'
           end
  end.

(** [list.sort(key=activity, reverse=True)]: descending, and stable, so
    conversations of equal activity keep the order they had. *)
Fixpoint insert_by_activity (c : ConversationResponse)
    (sorted : list ConversationResponse) : list ConversationResponse :=
  match sorted with
  | [] => [c]
  | c' :: rest =>
      if decide (String.le (activity c') (activity c))
      then c :: c' :: rest
      else c' :: insert_by_activity c rest
  end.

Definition sort_by_activity (cs : list ConversationResponse)
  : list ConversationResponse :=
  foldr insert_by_activity [] cs.

(** [GET /api/conversations] *)
Definition get_conversations (user_id : string)
  : handler (list ConversationResponse) :=
  participant_records <-
    query (λ d, filter (λ p, p_user_id p = user_id)
                  (conversation_participants d)) ;;
  match participant_records with
  | [] => ret []
  | _ :: _ =>
      let conv_ids := p_conversation_id <$> participant_records in
      conversations <- collect_conversations conv_ids user_id ;;
      ret (sort_by_activity conversations)
  end.

(** [.order('created_at', desc=True)] on chat requests. *)
Definition newer_request_first (r1 r2 : chat_request_row) : Prop :=
  String.le (r_created_at r2) (r_created_at r1).

Global Instance newer_request_first_dec : RelDecision newer_request_first.
Proof. intros r1 r2. unfold newer_request_first. apply _. Defined.

(** The response built for one row in the loop of [get_chat_requests]. *)
Definition chat_request_response (d : db) (req : chat_request_row)
  : ChatRequestResponse :=
  let sender := head (filter (λ u, u_id u = r_sender_id req) (users d)) in
  {| qr_id := r_id req; qr_sender_id := r_sender_id req;
     qr_sender_username :=
       match sender with
       | Some s => u_username s
       | None => "Unknown"
       end;
     qr_sender_avatar :=
       match sender with
       | Some s => u_avatar_url s
       | None => None
       end;
     qr_receiver_id := r_receiver_id req; qr_message := r_message req;
     qr_status := r_status req;
     qr_is_group_invite := r_is_group_invite req;
     qr_conversation_id := r_conversation_id req;
     qr_created_at := r_created_at req |}.

(** [GET /api/chat-requests] *)
Definition get_chat_requests (user_id : string)
  : handler (list ChatRequestResponse) :=
  result <-
    query (λ d, merge_sort newer_request_first
                  (filter (λ r, r_receiver_id r = user_id
                                ∧ r_status r = "pending")
                     (chat_requests d))) ;;
  requests <- query (λ d, chat_request_response d <$> result) ;;
  ret requests.

(** [typing] and [stop_typing]: to the room, but not to the sender. *)
Definition typing_event (event : string) (sid : string) (data : event_data)
  : handler unit :=
  match data !! "conversation_id", data !! "user_id" with
  | Some room_id, Some user_id =>
      if truthy room_id && truthy user_id
      then emit event (P_user user_id) (Some room_id) (Some sid)
      else ret tt
  | _, _ => ret tt
  end.

Definition typing (sid : string) (data : event_data) : handler unit :=
  typing_event "user_typing" sid data.

Definition stop_typing (sid : string) (data : event_data) : handler unit :=
  typing_event "user_stop_typing" sid data.

(** The body shared by the six events that pass [data] on to one user:
    [target = data.get(key)]; [if target in connected_users: emit(event,
    data, room=connected_users[target])]. *)
Definition forward (event key : string) (data : event_data) : handler unit :=
  cu <- global connected_users ;;
  match data !! key ≫= (λ target, dict_get target cu) with
  | Some target_sid => emit event (P_data data) (Some target_sid) None
  | None => ret tt
  end.

Definition webrtc_offer (sid : string) (data : event_data) : handler unit :=
  forward "webrtc_offer" "target_user_id" data.

Definition webrtc_answer (sid : string) (data : event_data) : handler unit :=
  forward "webrtc_answer" "target_user_id" data.

Definition webrtc_ice_candidate (sid : string) (data : event_data)
  : handler unit :=
  forward "webrtc_ice_candidate" "target_user_id" data.

Definition accept_call (sid : string) (data : event_data) : handler unit :=
  forward "call_accepted" "caller_id" data.

Definition reject_call (sid : string) (data : event_data) : handler unit :=
  forward "call_rejected" "caller_id" data.

Definition end_call (sid : string) (data : event_data) : handler unit :=
  forward "call_ended" "target_user_id" data.

(** The calls followed here: the requests of [serve] and the endpoints and
    events above.  The endpoints of the user accounts ([register], [login],
    [search_users], [update_profile]) are not among them; they read and
    write the [users] table only. *)
Inductive call :=
  | Served (r : request)
  | GetUser (target_user_id user_id : string)
  | GetMe (user_id : string)
  | GetConversations (user_id : string)
  | GetChatRequests (user_id : string)
  | Typing (sid : string) (data : event_data)
  | StopTyping (sid : string) (data : event_data)
  | WebrtcOffer (sid : string) (data : event_data)
  | WebrtcAnswer (sid : string) (data : event_data)
  | WebrtcIceCandidate (sid : string) (data : event_data)
  | AcceptCall (sid : string) (data : event_data)
  | RejectCall (sid : string) (data : event_data)
  | EndCall (sid : string) (data : event_data).

Definition answer (c : call) (w : world) : world :=
  match c with
  | Served r => serve r w
  | GetUser t u => (get_user t u w).2
  | GetMe u => (get_me u w).2
  | GetConversations u => (get_conversations u w).2
  | GetChatRequests u => (get_chat_requests u w).2
  | Typing sid data => (typing sid data w).2
  | StopTyping sid data => (stop_typing sid data w).2
  | WebrtcOffer sid data => (webrtc_offer sid data w).2
  | WebrtcAnswer sid data => (webrtc_answer sid data w).2
  | WebrtcIceCandidate sid data => (webrtc_ice_candidate sid data w).2
  | AcceptCall sid data => (accept_call sid data w).2
  | RejectCall sid data => (reject_call sid data w).2
  | EndCall sid data => (end_call sid data w).2
  end.

Definition answer_all (cs : list call) (w : world) : world :=
  foldl (λ w c, answer c w) w cs.

(** The keys of a dictionary. *)
Definition keys {V} (d : list (string * V)) : list string := fst <$> d.

(** ** Running handlers *)

Lemma bind_return {A B} (m : handler A) (k : A → handler B) w a w' :
  m w = (Return a, w') → bind m k w = k a w'.
Proof. intros E. unfold bind. by rewrite E. Qed.

Lemma bind_raise {A B} (m : handler A) (k : A → handler B) w c d w' :
  m w = (HTTPException c d, w') → bind m k w = (HTTPException c d, w').
Proof. intros E. unfold bind. by rewrite E. Qed.

(** A handler keeps a relation between the world it starts in and the
    world it leaves. *)
Definition keeps {A} (R : relation world) (h : handler A) : Prop :=
  ∀ w, R w (h w).2.

Section keeps.
Context (R : relation world) {HR : Reflexive R} {HT : Transitive R}.

Lemma keeps_ret {A} (a : A) : keeps R (ret a).
Proof using HR. intros w. simpl. reflexivity. Qed.

Lemma keeps_raise {A} c d : keeps R (@raise A c d).
Proof using HR. intros w. simpl. reflexivity. Qed.

Lemma keeps_query {A} (f : db → A) : keeps R (query f).
Proof using HR. intros w. simpl. reflexivity. Qed.

Lemma keeps_global {A} (f : world → A) : keeps R (global f).
Proof using HR. intros w. simpl. reflexivity. Qed.

Lemma keeps_bind {A B} (m : handler A) (k : A → handler B) :
  keeps R m → (∀ a, keeps R (k a)) → keeps R (bind m k).
Proof using HT.
  intros Hm Hk w. unfold bind. specialize (Hm w).
  destruct (m w) as [[a|c d] w1]; simpl in *; [|done].
  etrans; [exact Hm|apply Hk].
Qed.
End keeps.

(** ** The presence dictionaries *)

Lemma user_of_sid_unbound sid cu : unbound sid cu → user_of_sid sid cu = None.
Proof.
  induction cu as [|[uid s] cu IH]; intros Hu; simpl; [done|].
  destruct (decide (s = sid)) as [->|_].
  - exfalso. eapply Hu; [left|done].
  - apply IH. intros uid' s' Hin. eapply Hu. by right.
Qed.

Lemma user_of_sid_bound sid cu uid :
  user_of_sid sid cu = Some uid → (uid, sid) ∈ cu.
Proof.
  induction cu as [|[uid' s] cu IH]; simpl; [done|].
  destruct (decide (s = sid)) as [->|_].
  - intros [= ->]. left.
  - intros H. right. by apply IH.
Qed.

(** C5. When no user of the connection registry is bound to the session
    handle, [disconnect] returns normally and leaves the whole world as it
    was: the user-to-session map, the user-to-rooms map, and the trace, so
    no [user_offline] is emitted. *)
Theorem disconnect_unbound_noop sid w :
  unbound sid (connected_users w) →
  disconnect sid w = (Return tt, w).
Proof.
  intros Hu. unfold disconnect, bind, global.
  by rewrite (user_of_sid_unbound _ _ Hu).
Qed.

(** The converse side of C5: a bound handle does change the registry. *)
Lemma disconnect_bound sid w uid :
  user_of_sid sid (connected_users w) = Some uid → truthy uid = true →
  connected_users (disconnect sid w).2 = dict_del uid (connected_users w)
  ∧ trace (disconnect sid w).2
    = trace w ++ [Emit "user_offline" (P_user uid) None None].
Proof.
  intros E T. unfold disconnect, bind, global. rewrite E, T. simpl.
  by destruct (dict_in uid (user_rooms w)).
Qed.

(** The [incoming_call] event that [call_user] builds: the caller's id, the
    conversation and the call type as [data] gives them ("video" when no type
    is given), the caller's name and avatar from the caller's row in the
    store ("Unknown" and nothing when there is no such row). *)
Definition incoming_call (data : event_data) (d : db) : payload :=
  let caller := head (filter (λ u, Some (u_id u) = data !! "caller_id")
                        (users d)) in
  P_incoming_call (data !! "caller_id")
    match caller with
    | Some c => u_username c
    | None => "Unknown"
    end
    match caller with
    | Some c => u_avatar_url c
    | None => None
    end
    (data !! "conversation_id") (default "video" (data !! "call_type")).

(** A relay that answers nothing: [data] goes, unchanged and as [event], to
    the session of the user that [data] names under [key] when that user is
    in the connection registry, and nowhere when not (also when [data] has
    no [key]); the handler returns nothing in both cases and changes nothing
    else. *)
Definition relays_silently (relay : string → event_data → handler unit)
    (event key : string) : Prop :=
  ∀ (sid : string) (data : event_data) (w : world),
    match data !! key ≫= (λ target, dict_get target (connected_users w)) with
    | Some target_sid =>
        relay sid data w
        = (Return tt, log (Emit event (P_data data) (Some target_sid) None) w)
    | None => relay sid data w = (Return tt, w)
    end.

Lemma forward_relays_silently event key :
  relays_silently (λ _, forward event key) event key.
Proof.
  intros sid data w. unfold forward, bind, global.
  by destruct (_ ≫= _).
Qed.

(** C7. The relay of a call or WebRTC signal is decided by presence alone,
    but only two of the eight relays report the outcome.  If the target
    user is in the connection registry, the HTTP relay [webrtc_signal]
    emits one [webrtc_signal] event, carrying the signal as it came, to the
    session registered for that user and answers "sent", and [call_user]
    emits one [incoming_call] event, built from the data and the caller's
    row, to that session and answers "ringing"; if the target is absent both
    answer "user_offline" and emit nothing.  The six other socket relays
    ([webrtc_offer], [webrtc_answer], [webrtc_ice_candidate], [accept_call],
    [reject_call], [end_call]) pass their data on unchanged to the
    registered session of the target if there is one and drop it otherwise,
    and answer nothing in either case.  No relay raises, and the world
    after it differs from the world before by the emitted event at most, so
    both registry maps are what they were. *)
Theorem signal_relay_by_presence (signal : WebRTCSignal) (user_id sid : string)
    (data : event_data) w :
  match dict_get (ws_target_user_id signal) (connected_users w) with
  | Some target_sid =>
      webrtc_signal signal user_id w
      = (Return "sent",
         log (Emit "webrtc_signal"
                (P_webrtc_signal (ws_type signal) user_id
                   (ws_conversation_id signal) (ws_signal_data signal))
                (Some target_sid) None) w)
  | None => webrtc_signal signal user_id w = (Return "user_offline", w)
  end
  ∧ match data !! "target_user_id" ≫= (λ t, dict_get t (connected_users w)) with
    | Some target_sid =>
        call_user sid data w
        = (Return "ringing",
           log (Emit "incoming_call" (incoming_call data (supabase w))
                  (Some target_sid) None) w)
    | None => call_user sid data w = (Return "user_offline", w)
    end
  ∧ relays_silently webrtc_offer "webrtc_offer" "target_user_id"
  ∧ relays_silently webrtc_answer "webrtc_answer" "target_user_id"
  ∧ relays_silently webrtc_ice_candidate "webrtc_ice_candidate"
      "target_user_id"
  ∧ relays_silently accept_call "call_accepted" "caller_id"
  ∧ relays_silently reject_call "call_rejected" "caller_id"
  ∧ relays_silently end_call "call_ended" "target_user_id"
  ∧ (∀ e w0, registry_kept w0 (log e w0))
  ∧ registry_kept w (webrtc_signal signal user_id w).2
  ∧ registry_kept w (call_user sid data w).2.
Proof.
  split; [|split].
  - unfold webrtc_signal, bind, global.
    by destruct (dict_get _ (connected_users w)).
  - unfold call_user, bind, global.
    by destruct (_ ≫= _) as [t|].
  - repeat (split; [apply forward_relays_silently|]).
    split; [done|]. split.
    + unfold webrtc_signal, bind, global.
      by destruct (dict_get _ (connected_users w)).
    + unfold call_user, bind, global. by destruct (_ ≫= _).
Qed.

(** ** Read receipts *)

Lemma filter_id_update (f : message_row → message_row) msg_id
    (ms : list message_row) :
  (∀ m, m_id (f m) = m_id m) →
  filter (λ m, m_id m = msg_id) (f <$> ms)
  = f <$> filter (λ m, m_id m = msg_id) ms.
Proof.
  intros Hf. induction ms as [|m ms IH]; [done|].
  rewrite fmap_cons, !filter_cons, Hf.
  destruct (decide (m_id m = msg_id)); by rewrite ?fmap_cons, IH.
Qed.

Lemma set_read_by_at_id read_by msg_id m :
  m_id (if decide (m_id m = msg_id) then set_read_by read_by m else m)
  = m_id m.
Proof. by destruct (decide _). Qed.

Lemma messages_update_read_by e read_by msg_id w :
  messages (supabase (log e (update_read_by read_by msg_id w).2))
  = (λ m, if decide (m_id m = msg_id) then set_read_by read_by m else m)
      <$> messages (supabase w).
Proof. done. Qed.

(** The messages with id [msg_id] after [mark_message_read] has written. *)
Lemma mark_message_read_new msg_id user_id w msg rest :
  filter (λ m, m_id m = msg_id) (messages (supabase w)) = msg :: rest →
  user_id ∉ m_read_by msg →
  mark_message_read msg_id user_id w
  = (Return "ok",
     log (Emit "message_read" (P_message_read msg_id user_id)
            (Some (m_conversation_id msg)) None)
       (update_read_by (m_read_by msg ++ [user_id]) msg_id w).2)
  ∧ filter (λ m, m_id m = msg_id)
      (messages (supabase (mark_message_read msg_id user_id w).2))
    = set_read_by (m_read_by msg ++ [user_id])
        <$> (msg :: rest).
Proof.
  intros E Hn.
  assert (R : mark_message_read msg_id user_id w
    = (Return "ok",
       log (Emit "message_read" (P_message_read msg_id user_id)
              (Some (m_conversation_id msg)) None)
         (update_read_by (m_read_by msg ++ [user_id]) msg_id w).2)).
  { unfold mark_message_read, bind, query. rewrite E.
    by rewrite bool_decide_true. }
  split; [exact R|]. rewrite R. cbn [snd].
  rewrite messages_update_read_by.
  rewrite filter_id_update by apply set_read_by_at_id.
  rewrite E. apply list_fmap_ext. intros i m Hm.
  assert (Hin : m ∈ filter (λ m, m_id m = msg_id) (messages (supabase w))).
  { rewrite E. by eapply list_elem_of_lookup_2. }
  apply list_elem_of_filter in Hin as [Hid _]. by rewrite decide_True.
Qed.

Lemma mark_message_read_seen msg_id user_id w msg rest :
  filter (λ m, m_id m = msg_id) (messages (supabase w)) = msg :: rest →
  user_id ∈ m_read_by msg →
  mark_message_read msg_id user_id w = (Return "ok", w).
Proof.
  intros E Hin. unfold mark_message_read, bind, query. rewrite E.
  rewrite bool_decide_false; [done|]. by intros ?.
Qed.

(** C3. Marking an existing message read by a user already in its
    [read_by] writes nothing and emits nothing: the world is untouched.
    For a user not yet in [read_by] the call sends one update of the
    message whose [read_by] is the old one followed by the user, then emits
    [message_read] to the room of the message's conversation.  A second
    call right after the first leaves the whole world, and with it
    [read_by], as the first call left it. *)
Theorem mark_read_idempotent msg_id user_id w msg rest :
  filter (λ m, m_id m = msg_id) (messages (supabase w)) = msg :: rest →
  let w1 := (mark_message_read msg_id user_id w).2 in
  (user_id ∈ m_read_by msg →
   mark_message_read msg_id user_id w = (Return "ok", w))
  ∧ (user_id ∉ m_read_by msg →
     (mark_message_read msg_id user_id w).1 = Return "ok"
     ∧ trace w1
       = trace w ++ [Update "messages";
                     Emit "message_read" (P_message_read msg_id user_id)
                       (Some (m_conversation_id msg)) None]
     ∧ m_read_by <$> head (filter (λ m, m_id m = msg_id)
                             (messages (supabase w1)))
       = Some (m_read_by msg ++ [user_id]))
  ∧ mark_message_read msg_id user_id w1 = (Return "ok", w1).
Proof. clear verify_token.
  intros E w1. split; [|split].
  - apply (mark_message_read_seen _ _ _ _ _ E).
  - intros Hn.
    destruct (mark_message_read_new _ _ _ _ _ E Hn) as [R F].
    subst w1. rewrite F. rewrite R. simpl. by rewrite <- app_assoc.
  - destruct (decide (user_id ∈ m_read_by msg)) as [Hin|Hn].
    + subst w1. rewrite (mark_message_read_seen _ _ _ _ _ E Hin). simpl.
      by apply (mark_message_read_seen _ _ _ _ _ E).
    + destruct (mark_message_read_new _ _ _ _ _ E Hn) as [_ F].
      fold w1 in F. rewrite fmap_cons in F.
      apply (mark_message_read_seen _ _ _ _ _ F).
      simpl. set_solver.
Qed.

(** C9. [mark_message_read] never looks at the participants of the
    conversation.  Whoever the user is, the call raises 404 exactly when no
    message has the id; otherwise it answers "ok", the user is in the
    [read_by] of the message afterwards, and when the user was not there
    before, [message_read] is emitted to the room of the message's
    conversation.  This holds in particular for a user who is not a
    participant of that conversation. *)
Theorem mark_read_unauthorized msg_id user_id w :
  match filter (λ m, m_id m = msg_id) (messages (supabase w)) with
  | [] =>
      mark_message_read msg_id user_id w
      = (NotFoundError "Message not found", w)
  | msg :: _ =>
      let w1 := (mark_message_read msg_id user_id w).2 in
      (mark_message_read msg_id user_id w).1 = Return "ok"
      ∧ (∃ msg1, head (filter (λ m, m_id m = msg_id)
                         (messages (supabase w1))) = Some msg1
                 ∧ user_id ∈ m_read_by msg1
                 ∧ m_read_by msg ⊆ m_read_by msg1)
      ∧ (if bool_decide (user_id ∈ m_read_by msg) then trace w1 = trace w
         else trace w1
              = trace w ++ [Update "messages";
                            Emit "message_read"
                              (P_message_read msg_id user_id)
                              (Some (m_conversation_id msg)) None])
  end.
Proof. clear verify_token.
  destruct (filter _ _) as [|msg rest] eqn:E.
  - unfold mark_message_read, bind, query. by rewrite E.
  - simpl. destruct (decide (user_id ∈ m_read_by msg)) as [Hin|Hn].
    + rewrite (mark_message_read_seen _ _ _ _ _ E Hin). simpl.
      rewrite E, bool_decide_true by done. split; [done|].
      split; [|done]. by exists msg.
    + destruct (mark_message_read_new _ _ _ _ _ E Hn) as [R F].
      rewrite F. rewrite R. simpl. rewrite bool_decide_false by done.
      split; [done|]. split; [|by rewrite <- app_assoc].
      eexists. split; [done|]. simpl. set_solver.
Qed.

(** ** Chat requests *)

(** No (sender, receiver) pair has more pending requests than before. *)
Definition no_new_pending (w w' : world) : Prop :=
  ∀ sender receiver,
    length (pending_between sender receiver (supabase w'))
    ≤ length (pending_between sender receiver (supabase w)).

Global Instance no_new_pending_refl : Reflexive no_new_pending.
Proof. by intros w s r. Qed.

Global Instance no_new_pending_trans : Transitive no_new_pending.
Proof. intros w1 w2 w3 H12 H23 s r. etrans; [apply H23|apply H12]. Qed.

Lemma same_requests_no_new_pending w w' :
  chat_requests (supabase w') = chat_requests (supabase w) →
  no_new_pending w w'.
Proof. intros E s r. unfold pending_between. by rewrite E. Qed.

Lemma pending_after_update status req_id sender receiver
    (rs : list chat_request_row) :
  status ≠ "pending" →
  length (filter (λ r, r_sender_id r = sender ∧ r_receiver_id r = receiver
                       ∧ r_status r = "pending")
            ((λ r, if decide (r_id r = req_id)
                   then set_status status r else r) <$> rs))
  ≤ length (filter (λ r, r_sender_id r = sender ∧ r_receiver_id r = receiver
                         ∧ r_status r = "pending") rs).
Proof.
  intros Hs. induction rs as [|r rs IH]; [done|].
  rewrite fmap_cons, !filter_cons.
  destruct (decide (r_id r = req_id)) as [_|_].
  - rewrite decide_False by (by intros (_ & _ & ?)).
    destruct (decide _); simpl; lia.
  - destruct (decide _); simpl; lia.
Qed.

Lemma keeps_update_status status req_id :
  status ≠ "pending" → keeps no_new_pending (update_status status req_id).
Proof. intros Hs w s r. by apply pending_after_update. Qed.

(** Handlers built from the primitive actions are taken apart bind by
    bind; what is left are single actions that do not touch the chat
    requests. *)
Ltac keeps_step :=
  lazymatch goal with
  | |- keeps _ (bind _ _) =>
      apply keeps_bind; [tc_solve | | intros ? ]
  | |- keeps _ (ret _) => apply keeps_ret; tc_solve
  | |- keeps _ (raise _ _) => apply keeps_raise; tc_solve
  | |- keeps _ (query _) => apply keeps_query; tc_solve
  | |- keeps _ (global _) => apply keeps_global; tc_solve
  | |- keeps _ (update_status _ _) => apply keeps_update_status; done
  | |- keeps _ (insert_message ?s _) =>
      destruct s; by (intros ?; apply same_requests_no_new_pending)
  | |- keeps _ (match ?x with _ => _ end) => destruct x
  | |- keeps _ _ =>
      first [ assumption
            | by (intros ?; apply same_requests_no_new_pending) ]
  end.

Lemma keeps_add_participants conv_id pids :
  keeps no_new_pending (add_participants conv_id pids).
Proof. induction pids as [|pid pids IH]; simpl; repeat keeps_step. Qed.

Lemma keeps_get_conversation conv_id user_id :
  keeps no_new_pending (get_conversation conv_id user_id).
Proof. unfold get_conversation. repeat keeps_step. Qed.

Lemma keeps_create_conversation conv_data user_id :
  keeps no_new_pending (create_conversation conv_data user_id).
Proof.
  unfold create_conversation.
  repeat first [apply keeps_get_conversation | apply keeps_add_participants
               | keeps_step].
Qed.

Lemma keeps_accept_chat_request req_id user_id :
  keeps no_new_pending (accept_chat_request req_id user_id).
Proof.
  unfold accept_chat_request.
  repeat first [apply keeps_get_conversation
               | apply keeps_create_conversation | keeps_step].
Qed.

Lemma keeps_reject_chat_request req_id user_id :
  keeps no_new_pending (reject_chat_request req_id user_id).
Proof. unfold reject_chat_request. repeat keeps_step. Qed.

Lemma keeps_send_message stored msg_data user_id :
  keeps no_new_pending (send_message stored msg_data user_id).
Proof.
  unfold send_message. repeat keeps_step.
Qed.

Lemma keeps_get_messages conv_id limit offset user_id :
  keeps no_new_pending (get_messages conv_id limit offset user_id).
Proof. unfold get_messages. repeat keeps_step. Qed.

Lemma keeps_mark_message_read msg_id user_id :
  keeps no_new_pending (mark_message_read msg_id user_id).
Proof. unfold mark_message_read. repeat keeps_step. Qed.

Lemma keeps_webrtc_signal signal user_id :
  keeps no_new_pending (webrtc_signal signal user_id).
Proof. unfold webrtc_signal. repeat keeps_step. Qed.

Lemma keeps_disconnect sid : keeps no_new_pending (disconnect sid).
Proof.
  unfold disconnect. repeat keeps_step.
  intros w. apply same_requests_no_new_pending. simpl.
  by destruct (dict_in _ _).
Qed.

Lemma keeps_authenticate sid data :
  keeps no_new_pending (authenticate sid data).
Proof. unfold authenticate. repeat keeps_step. Qed.

Lemma keeps_join_room e sid data :
  keeps no_new_pending (join_room e sid data).
Proof.
  unfold join_room, enter_room, uncaught. destruct e; repeat keeps_step.
  all: intros w; apply same_requests_no_new_pending; simpl;
    by destruct (user_of_sid _ _).
Qed.

Lemma keeps_leave_room sid data : keeps no_new_pending (leave_room sid data).
Proof. unfold leave_room. repeat keeps_step. Qed.

Lemma keeps_call_user sid data : keeps no_new_pending (call_user sid data).
Proof. unfold call_user. repeat keeps_step. Qed.

(** The row [create_chat_request] writes in world [w]. *)
Definition new_request (req_data : ChatRequestCreate) (user_id : string)
    (w : world) : chat_request_row :=
  {| r_id := uuid (uuid_calls w); r_sender_id := user_id;
     r_receiver_id := qc_receiver_id req_data;
     r_message := qc_message req_data; r_status := "pending";
     r_is_group_invite := qc_is_group_invite req_data;
     r_conversation_id := qc_conversation_id req_data;
     r_created_at := now (clock_calls w) |}.

Lemma create_chat_request_conflict stored req_data user_id w :
  pending_between user_id (qc_receiver_id req_data) (supabase w) ≠ [] →
  create_chat_request stored req_data user_id w = (ConflictError, w).
Proof.
  intros Hp. unfold create_chat_request, bind, query.
  unfold pending_between in Hp. by destruct (filter _ _).
Qed.

Lemma create_chat_request_free stored req_data user_id w :
  pending_between user_id (qc_receiver_id req_data) (supabase w) = [] →
  chat_requests (supabase (create_chat_request stored req_data user_id w).2)
  = chat_requests (supabase w)
    ++ (if stored then [new_request req_data user_id w] else [])
  ∧ (create_chat_request stored req_data user_id w).1
    = if stored
      then Return
             {| qr_id := uuid (uuid_calls w); qr_sender_id := user_id;
                qr_sender_username :=
                  match head (filter (λ u, u_id u = user_id)
                                (users (supabase w))) with
                  | Some s => u_username s
                  | None => "Unknown"
                  end;
                qr_sender_avatar :=
                  match head (filter (λ u, u_id u = user_id)
                                (users (supabase w))) with
                  | Some s => u_avatar_url s
                  | None => None
                  end;
                qr_receiver_id := qc_receiver_id req_data;
                qr_message := qc_message req_data; qr_status := "pending";
                qr_is_group_invite := qc_is_group_invite req_data;
                qr_conversation_id := qc_conversation_id req_data;
                qr_created_at := now (clock_calls w) |}
      else StoreError "Failed to create request".
Proof.
  intros Hp. unfold create_chat_request, bind, query.
  unfold pending_between in Hp. rewrite Hp.
  destruct stored; cbn.
  - destruct (dict_get _ _); cbn; by rewrite ?app_nil_r.
  - by rewrite app_nil_r.
Qed.

Lemma create_chat_request_pending_unique stored req_data user_id w :
  pending_unique (supabase w) →
  pending_unique (supabase (create_chat_request stored req_data user_id w).2).
Proof.
  intros Hu.
  destruct (pending_between user_id (qc_receiver_id req_data) (supabase w))
    as [|r0 rs] eqn:Hp.
  - destruct (create_chat_request_free stored _ _ _ Hp) as [E _].
    intros s r. unfold pending_between. rewrite E, filter_app, length_app.
    destruct stored; [|simpl; specialize (Hu s r); unfold pending_between in Hu;
                       lia].
    rewrite filter_cons, filter_nil.
    destruct (decide _) as [(Hs & Hr & _)|_]; simpl in *.
    + subst s r. unfold pending_between in Hp. rewrite Hp. simpl. lia.
    + specialize (Hu s r). unfold pending_between in Hu. lia.
  - rewrite create_chat_request_conflict; [done|]. by rewrite Hp.
Qed.

Lemma no_new_pending_unique w w' :
  no_new_pending w w' →
  pending_unique (supabase w) → pending_unique (supabase w').
Proof. intros Hn Hu s r. etrans; [apply Hn|apply Hu]. Qed.

Lemma serve_pending_unique r w :
  pending_unique (supabase w) → pending_unique (supabase (serve r w)).
Proof.
  destruct r; simpl;
    try (apply no_new_pending_unique;
         first [ apply keeps_create_conversation | apply keeps_get_conversation
               | apply keeps_send_message | apply keeps_get_messages
               | apply keeps_mark_message_read
               | apply keeps_accept_chat_request
               | apply keeps_reject_chat_request | apply keeps_webrtc_signal
               | apply keeps_disconnect | apply keeps_authenticate
               | apply keeps_join_room | apply keeps_leave_room
               | apply keeps_call_user ]).
  apply create_chat_request_pending_unique.
Qed.

Lemma run_pending_unique rs w :
  pending_unique (supabase w) → pending_unique (supabase (run rs w)).
Proof.
  revert w. induction rs as [|r rs IH]; intros w Hu; [done|].
  simpl. apply IH. by apply serve_pending_unique.
Qed.

(** C8. For the ordered pair (sender, receiver) of a new chat request:
    when a pending request of that pair is in the store the call raises the
    conflict error and changes nothing; when there is none and the store
    takes the row, the call answers with a pending request and the store
    holds one more row, that request with status pending.  Hence, whatever
    requests a server started on a store without chat requests has served,
    no ordered pair has more than one pending request. *)
Theorem create_chat_request_pending_once (stored : bool)
    (req_data : ChatRequestCreate) (user_id : string) (w : world)
    (registered : list user_row) (served : list request) :
  match pending_between user_id (qc_receiver_id req_data) (supabase w) with
  | _ :: _ =>
      create_chat_request stored req_data user_id w = (ConflictError, w)
  | [] =>
      (∃ response,
         (create_chat_request true req_data user_id w).1 = Return response
         ∧ qr_status response = "pending"
         ∧ qr_sender_id response = user_id
         ∧ qr_receiver_id response = qc_receiver_id req_data)
      ∧ chat_requests
          (supabase (create_chat_request true req_data user_id w).2)
        = chat_requests (supabase w) ++ [new_request req_data user_id w]
      ∧ r_status (new_request req_data user_id w) = "pending"
  end
  ∧ pending_unique (supabase (run served (boot registered))).
Proof.
  split.
  - destruct (pending_between _ _ _) eqn:Hp.
    + destruct (create_chat_request_free true _ _ _ Hp) as [E R].
      split; [|done]. rewrite R. by eexists.
    + apply create_chat_request_conflict. by rewrite Hp.
  - apply run_pending_unique. intros s r. cbn. lia.
Qed.

(** ** The request lifecycle *)

Lemma accept_chat_request_processed req_id user_id w req rest :
  filter (λ r, r_id r = req_id ∧ r_receiver_id r = user_id)
    (chat_requests (supabase w)) = req :: rest →
  r_status req ≠ "pending" →
  accept_chat_request req_id user_id w = (StateError, w).
Proof.
  intros E Hs. unfold accept_chat_request, bind, query. rewrite E.
  by rewrite bool_decide_true.
Qed.

(** [reject_chat_request] does not look at the status it overwrites. *)
Lemma reject_chat_request_any_status req_id user_id w req rest :
  filter (λ r, r_id r = req_id ∧ r_receiver_id r = user_id)
    (chat_requests (supabase w)) = req :: rest →
  reject_chat_request req_id user_id w
  = (Return "rejected", (update_status "rejected" req_id w).2)
  ∧ ∀ r, r ∈ chat_requests (supabase (reject_chat_request req_id user_id w).2)
         → r_id r = req_id → r_status r = "rejected".
Proof.
  intros E.
  assert (R : reject_chat_request req_id user_id w
              = (Return "rejected", (update_status "rejected" req_id w).2)).
  { unfold reject_chat_request, bind, query. by rewrite E. }
  split; [exact R|]. rewrite R. cbn. intros r Hin Hid.
  apply list_elem_of_fmap in Hin as (r0 & -> & _).
  destruct (decide (r_id r0 = req_id)); [done|]. by destruct n.
Qed.

(** ** Sending and fetching messages *)

Lemma is_participant_filter d conv_id user_id :
  is_participant d conv_id user_id
  ↔ filter (λ p, p_conversation_id p = conv_id ∧ p_user_id p = user_id)
      (conversation_participants d) ≠ [].
Proof.
  unfold is_participant. split.
  - intros (p & Hin & Hc & Hu) E.
    assert (Hp : p ∈ filter (λ p, p_conversation_id p = conv_id
                                  ∧ p_user_id p = user_id)
                       (conversation_participants d))
      by by apply list_elem_of_filter.
    rewrite E in Hp. by apply not_elem_of_nil in Hp.
  - destruct (filter _ _) as [|p ps] eqn:E; [done|]. intros _.
    assert (Hp : p ∈ filter (λ p, p_conversation_id p = conv_id
                                  ∧ p_user_id p = user_id)
                       (conversation_participants d))
      by (rewrite E; left).
    apply list_elem_of_filter in Hp as [[Hc Hu] Hin]. by exists p.
Qed.

(** The row [send_message] writes in world [w]. *)
Definition new_message (msg_data : MessageCreate) (user_id : string)
    (w : world) : message_row :=
  {| m_id := uuid (uuid_calls w);
     m_conversation_id := mc_conversation_id msg_data;
     m_sender_id := user_id; m_content := mc_content msg_data;
     m_message_type := mc_message_type msg_data;
     m_read_by := [user_id]; m_created_at := now (clock_calls w) |}.

Lemma send_message_stranger stored msg_data user_id w :
  ¬ is_participant (supabase w) (mc_conversation_id msg_data) user_id →
  send_message stored msg_data user_id w = (AuthzError, w).
Proof.
  rewrite is_participant_filter. intros Hn.
  unfold send_message, bind, query.
  destruct (filter _ _); [done|]. by destruct Hn.
Qed.

Lemma send_message_participant stored msg_data user_id w :
  is_participant (supabase w) (mc_conversation_id msg_data) user_id →
  let response :=
    format_message (new_message msg_data user_id w)
      (head (filter (λ u, u_id u = user_id) (users (supabase w)))) in
  let w1 := (send_message stored msg_data user_id w).2 in
  (send_message stored msg_data user_id w).1
  = (if stored then Return response
     else StoreError "Failed to send message")
  ∧ messages (supabase w1)
    = messages (supabase w)
      ++ (if stored then [new_message msg_data user_id w] else [])
  ∧ trace w1
    = trace w
      ++ Insert "messages"
         :: (if stored
             then [Emit "new_message" (P_message response)
                     (Some (mc_conversation_id msg_data)) None]
             else []).
Proof.
  rewrite is_participant_filter. intros Hp.
  unfold send_message, bind, query.
  destruct (filter _ (conversation_participants _)); [done|].
  destruct stored; cbn; rewrite ?app_nil_r, <- ?app_assoc; done.
Qed.

Lemma send_message_same_store (stored : bool) (msg_data : MessageCreate)
    (user_id : string) (w w' : world) :
  supabase w' = supabase w → uuid_calls w' = uuid_calls w →
  clock_calls w' = clock_calls w →
  (send_message stored msg_data user_id w').1
  = (send_message stored msg_data user_id w).1
  ∧ supabase (send_message stored msg_data user_id w').2
    = supabase (send_message stored msg_data user_id w).2.
Proof.
  intros Ed Eu Ec. unfold send_message, bind, query.
  rewrite Ed.
  destruct (filter _ (conversation_participants _)); [done|].
  unfold insert_message, uuid4, utcnow, emit.
  destruct stored; cbn; by rewrite ?Ed, ?Eu, ?Ec.
Qed.

(** C6. [send_message] raises the 403 of a non-participant exactly when
    the sender has no participant row in the conversation.  When it
    answers with a message, the store has taken one more message row, the
    one answered, whose [read_by] is the list of the sender alone.  It
    answers with a message exactly when the sender is a participant and
    the store took the row; and its answer and the store it leaves are the
    same in any two worlds that agree on the store and on the two
    counters, whoever is connected or joined to the room in them. *)
Theorem send_message_contract (stored : bool) (msg_data : MessageCreate)
    (user_id : string) (w w' : world) :
  ((send_message stored msg_data user_id w).1 = AuthzError
   ↔ ¬ is_participant (supabase w) (mc_conversation_id msg_data) user_id)
  ∧ (∀ response,
       (send_message stored msg_data user_id w).1 = Return response →
       mr_read_by response = [user_id]
       ∧ mr_id response = m_id (new_message msg_data user_id w)
       ∧ m_read_by (new_message msg_data user_id w) = [user_id]
       ∧ messages (supabase (send_message stored msg_data user_id w).2)
         = messages (supabase w) ++ [new_message msg_data user_id w])
  ∧ ((∃ response,
        (send_message stored msg_data user_id w).1 = Return response)
     ↔ is_participant (supabase w) (mc_conversation_id msg_data) user_id
       ∧ stored = true)
  ∧ (supabase w' = supabase w → uuid_calls w' = uuid_calls w →
     clock_calls w' = clock_calls w →
     (send_message stored msg_data user_id w').1
     = (send_message stored msg_data user_id w).1
     ∧ supabase (send_message stored msg_data user_id w').2
       = supabase (send_message stored msg_data user_id w).2).
Proof.
  assert (Hdec : is_participant (supabase w)
                   (mc_conversation_id msg_data) user_id
                 ∨ ¬ is_participant (supabase w)
                       (mc_conversation_id msg_data) user_id).
  { rewrite is_participant_filter.
    destruct (filter _ _); [right; by intros ?|by left]. }
  split; [|split; [|split; [|apply send_message_same_store]]].
  - destruct Hdec as [Hp|Hn].
    + destruct (send_message_participant stored _ _ _ Hp) as (R & _).
      rewrite R. split; [by destruct stored|done].
    + by rewrite (send_message_stranger stored _ _ _ Hn).
  - intros response. destruct Hdec as [Hp|Hn].
    + destruct (send_message_participant stored _ _ _ Hp) as (R & M & _).
      rewrite R, M. destruct stored; [|done]. by intros [= <-].
    + by rewrite (send_message_stranger stored _ _ _ Hn).
  - destruct Hdec as [Hp|Hn].
    + destruct (send_message_participant stored _ _ _ Hp) as (R & _).
      rewrite R. split; [|intros [_ ->]; by eexists].
      intros [response E]. by destruct stored.
    + rewrite (send_message_stranger stored _ _ _ Hn).
      split; [by intros [? ?]|by intros [? _]].
Qed.

(** The store's order is newest first. *)
Global Instance newer_first_trans : Transitive newer_first.
Proof. intros m1 m2 m3 H12 H23. unfold newer_first in *. by etrans. Qed.

Global Instance newer_first_total : Total newer_first.
Proof. intros m1 m2. unfold newer_first. apply (total String.le). Qed.

Lemma StronglySorted_reverse {A} (R : relation A) (l : list A) :
  StronglySorted R l → StronglySorted (flip R) (reverse l).
Proof.
  induction 1 as [|x l Hs IH Hx]; [constructor|].
  rewrite reverse_cons. apply StronglySorted_app_2; [|done|repeat constructor].
  intros x1 x2 H1 ->%list_elem_of_singleton. unfold flip.
  rewrite Forall_forall in Hx. apply Hx. by apply elem_of_reverse.
Qed.

Lemma StronglySorted_take_drop {A} (R : relation A) n k (l : list A) :
  StronglySorted R l → StronglySorted R (take n (drop k l)).
Proof.
  intros Hs.
  assert (Hd : StronglySorted R (drop k l)).
  { rewrite <- (take_drop k l) in Hs. by apply StronglySorted_app_1_r in Hs. }
  rewrite <- (take_drop n (drop k l)) in Hd.
  by apply StronglySorted_app_1_l in Hd.
Qed.

(** The messages of a conversation in the order the store gives them:
    newest first. *)
Definition newest_first (conv_id : string) (d : db) : list message_row :=
  order_created_at_desc
    (filter (λ m, m_conversation_id m = conv_id) (messages d)).

(** A page of that order: [limit] rows from position [offset] on. *)
Definition page (conv_id : string) (limit offset : Z) (d : db)
  : list message_row :=
  take (Z.to_nat limit) (drop (Z.to_nat offset) (newest_first conv_id d)).

Lemma range_answered {A} (start stop : Z) (rows answer : list A) :
  range start stop rows = Some answer →
  (0 ≤ start)%Z ∧ (0 ≤ stop - start + 1)%Z
  ∧ answer = take (Z.to_nat (stop - start + 1)) (drop (Z.to_nat start) rows).
Proof.
  unfold range. destruct (decide _) as [[? ?]|]; [|done].
  by intros [= <-].
Qed.

Lemma range_page conv_id (limit offset : Z) d :
  (0 ≤ offset)%Z → (0 ≤ limit)%Z →
  range offset (offset + limit - 1) (newest_first conv_id d)
  = Some (page conv_id limit offset d).
Proof.
  intros Ho Hl. unfold range, page.
  rewrite decide_True by lia. do 3 f_equal. lia.
Qed.

Lemma range_page_inv conv_id (limit offset : Z) d answer :
  range offset (offset + limit - 1) (newest_first conv_id d) = Some answer →
  (0 ≤ offset)%Z ∧ (0 ≤ limit)%Z ∧ answer = page conv_id limit offset d.
Proof.
  intros (Ho & Hl & ->)%range_answered. split; [done|]. split; [lia|].
  unfold page. do 2 f_equal. lia.
Qed.

(** What [get_messages] does for a participant: it asks the store for the
    page and, if the store answers, formats the rows and reverses them. *)
Lemma get_messages_run conv_id (limit offset : Z) user_id w :
  is_participant (supabase w) conv_id user_id →
  get_messages conv_id limit offset user_id w
  = match range offset (offset + limit - 1)
            (newest_first conv_id (supabase w)) with
    | Some rows =>
        let senders_map : gmap string user_row :=
          foldl (λ m u, <[u_id u := u]> m) ∅
            (filter (λ u, u_id u ∈ list_set (m_sender_id <$> rows))
               (users (supabase w))) in
        (Return (reverse ((λ m, format_message m
                                  (senders_map !! m_sender_id m)) <$> rows)),
         w)
    | None => (HTTPException 500 "Internal Server Error", w)
    end.
Proof.
  rewrite is_participant_filter. intros Hp.
  unfold get_messages, bind, query.
  destruct (filter _ (conversation_participants _)); [done|].
  fold (newest_first conv_id (supabase w)).
  destruct (range _ _ _) as [rows|]; [|done].
  by destruct rows.
Qed.

(** C4. For a requester who is a participant of the conversation: the store
    sorts the messages of the conversation newest first; for an [offset]
    from 0 on and a [limit] of 1 or more, [get_messages] answers, without
    changing the world, with the reversal of the formatted rows at
    positions [offset .. offset + limit - 1] of that order; and for every
    [limit] and [offset], whatever it returns is the reversal of that page,
    hence sorted oldest first by creation time, and the world is never
    changed. *)
Theorem get_messages_chronological conv_id (limit offset : Z) user_id w :
  is_participant (supabase w) conv_id user_id →
  StronglySorted newer_first (newest_first conv_id (supabase w))
  ∧ newest_first conv_id (supabase w)
    ≡ₚ filter (λ m, m_conversation_id m = conv_id) (messages (supabase w))
  ∧ ((0 ≤ offset)%Z → (0 < limit)%Z →
     ∃ senders : string → option user_row,
       get_messages conv_id limit offset user_id w
       = (Return
            (reverse ((λ m, format_message m (senders (m_sender_id m)))
                        <$> take (Z.to_nat limit)
                              (drop (Z.to_nat offset)
                                 (newest_first conv_id (supabase w))))),
          w))
  ∧ (∀ msgs : list MessageResponse,
       (get_messages conv_id limit offset user_id w).1 = Return msgs →
       chronological msgs
       ∧ ∃ senders : string → option user_row,
           msgs = reverse ((λ m, format_message m (senders (m_sender_id m)))
                             <$> page conv_id limit offset (supabase w)))
  ∧ (get_messages conv_id limit offset user_id w).2 = w.
Proof.
  intros Hp.
  assert (Hsorted : StronglySorted newer_first
                      (newest_first conv_id (supabase w)))
    by apply (StronglySorted_merge_sort _).
  pose proof (get_messages_run conv_id limit offset user_id w Hp) as Hrun.
  split; [done|]. split; [apply merge_sort_Permutation|].
  split; [|split].
  - intros Ho Hl. rewrite range_page in Hrun by lia. cbv zeta in Hrun.
    eexists (λ s, _ !! s). exact Hrun.
  - intros msgs Hret. rewrite Hrun in Hret.
    destruct (range _ _ _) as [rows|] eqn:Hrange; [|done].
    apply range_page_inv in Hrange as (_ & _ & ->).
    cbv zeta in Hret. injection Hret as <-. split.
    + unfold chronological. rewrite <- fmap_reverse.
      eapply StronglySorted_fmap;
        [|apply StronglySorted_reverse, StronglySorted_take_drop, Hsorted].
      by intros m1 m2.
    + by eexists (λ s, _ !! s).
  - rewrite Hrun. by destruct (range _ _ _).
Qed.

(** ** Conversations *)

Lemma get_conversation_reads conv_id user_id w :
  (get_conversation conv_id user_id w).2 = w.
Proof.
  unfold get_conversation, bind, query, global, raise, ret.
  destruct (filter _ (conversations _)); [done|].
  by destruct (bool_decide _).
Qed.

Lemma get_conversation_same_store conv_id user_id w w' :
  supabase w' = supabase w → connected_users w' = connected_users w →
  (get_conversation conv_id user_id w').1
  = (get_conversation conv_id user_id w).1.
Proof.
  intros Ed Ec. unfold get_conversation, bind, query, global, raise, ret.
  rewrite ?Ed.
  destruct (filter _ (conversations _)); [done|].
  rewrite ?Ed.
  destruct (bool_decide _); [done|]. cbn. by rewrite ?Ed, ?Ec.
Qed.

Lemma get_conversation_member conv_id user_id w :
  filter (λ c, c_id c = conv_id) (conversations (supabase w)) ≠ [] →
  user_id ∈ p_user_id <$> filter (λ p, p_conversation_id p = conv_id)
                             (conversation_participants (supabase w)) →
  ∃ conv, get_conversation conv_id user_id w = (Return conv, w)
          ∧ cr_id conv = conv_id.
Proof.
  intros Hc Hu. unfold get_conversation, bind, query, global, raise, ret.
  destruct (filter _ (conversations _)) as [|conv convs] eqn:E; [done|].
  rewrite bool_decide_false by (by intros ?).
  eexists. split; [done|]. simpl.
  assert (Hin : conv ∈ filter (λ c, c_id c = conv_id)
                         (conversations (supabase w))) by (rewrite E; left).
  by apply list_elem_of_filter in Hin as [? _].
Qed.

(** What the loop of [create_conversation] tests for a conversation id. *)
Definition private_match (d : db) (all_participants : list string)
    (conv_id : string) : Prop :=
  filter (λ c, c_id c = conv_id ∧ c_is_group c = false) (conversations d)
  ≠ []
  ∧ (list_to_set
       (p_user_id <$> filter (λ p, p_conversation_id p = conv_id)
                        (conversation_participants d)) : gset string)
    = list_to_set all_participants.

Lemma find_private_cons d all_participants ep rest :
  find_private d all_participants (ep :: rest)
  = if decide (private_match d all_participants (p_conversation_id ep))
    then Some (p_conversation_id ep)
    else find_private d all_participants rest.
Proof.
  simpl. unfold private_match.
  destruct (filter _ (conversations d)) as [|c cs].
  - rewrite decide_False; [done|]. by intros [? _].
  - destruct (decide (list_to_set _ = _)) as [E|E].
    + by rewrite decide_True.
    + rewrite decide_False; [done|]. by intros [_ ?].
Qed.

Lemma find_private_Some d all_participants rows conv_id :
  find_private d all_participants rows = Some conv_id →
  private_match d all_participants conv_id.
Proof.
  induction rows as [|ep rows IH]; [done|].
  rewrite find_private_cons. destruct (decide _) as [Hm|_]; [|done].
  by intros [= <-].
Qed.



(** The rows [add_participants] writes are the members, in order, all of
    the new conversation; nothing else of the store changes. *)
Lemma add_participants_run conv_id pids w :
  ∃ rows w1,
    add_participants conv_id pids w = (Return tt, w1)
    ∧ conversation_participants (supabase w1)
      = conversation_participants (supabase w) ++ rows
    ∧ p_user_id <$> rows = pids
    ∧ Forall (λ p, p_conversation_id p = conv_id) rows
    ∧ conversations (supabase w1) = conversations (supabase w)
    ∧ users (supabase w1) = users (supabase w)
    ∧ messages (supabase w1) = messages (supabase w)
    ∧ chat_requests (supabase w1) = chat_requests (supabase w)
    ∧ connected_users w1 = connected_users w
    ∧ user_rooms w1 = user_rooms w.
Proof.
  revert w. induction pids as [|pid pids IH]; intros w.
  - exists [], w. simpl. by rewrite app_nil_r.
  - simpl. unfold bind at 1. unfold uuid4 at 1. unfold bind at 1.
    unfold utcnow at 1. unfold bind at 1. unfold insert_participant at 1.
    cbn [fst snd].
    match goal with
    | |- ∃ rows w1, add_participants _ _ ?w0 = _ ∧ _ =>
        destruct (IH w0)
          as (rows & w1 & R & Ep & Eu & Ec & E1 & E2 & E3 & E4 & E5 & E6)
    end.
    eexists (_ :: rows), w1. rewrite R, Ep.
    cbn in *. rewrite <- app_assoc.
    repeat split; try done.
    + by rewrite Eu.
    + by constructor.
Qed.

(** The row of the conversation [create_conversation] writes in [w]. *)
Definition new_conversation (conv_data : ConversationCreate)
    (user_id : string) (w : world) : conversation_row :=
  {| c_id := uuid (uuid_calls w);
     c_name := if cc_is_group conv_data then cc_name conv_data else None;
     c_is_group := cc_is_group conv_data;
     c_created_by := user_id; c_created_at := now (clock_calls w) |}.

(** The existing private conversation [create_conversation] settles on. *)
Definition existing_private (conv_data : ConversationCreate)
    (user_id : string) (d : db) : option string :=
  let all_participants := list_set (user_id :: cc_participant_ids conv_data) in
  if negb (cc_is_group conv_data)
     && bool_decide (length all_participants = 2)
  then find_private d all_participants
         (filter (λ p, p_user_id p = user_id) (conversation_participants d))
  else None.

Lemma user_in_list_set user_id pids : user_id ∈ list_set (user_id :: pids).
Proof. clear verify_token. unfold list_set. rewrite elem_of_elements. set_solver. Qed.

Lemma list_to_set_list_set xs :
  (list_to_set (list_set xs) : gset string) = list_to_set xs.
Proof. unfold list_set. apply list_to_set_elements_L. Qed.

Lemma existing_private_Some conv_data user_id d conv_id :
  existing_private conv_data user_id d = Some conv_id →
  private_match d (list_set (user_id :: cc_participant_ids conv_data)) conv_id.
Proof.
  unfold existing_private. destruct (_ && _); [|done].
  apply find_private_Some.
Qed.

Lemma private_match_member d all_participants conv_id user_id :
  private_match d all_participants conv_id → user_id ∈ all_participants →
  filter (λ c, c_id c = conv_id) (conversations d) ≠ []
  ∧ user_id ∈ p_user_id <$> filter (λ p, p_conversation_id p = conv_id)
                               (conversation_participants d).
Proof.
  intros [Hc Hs] Hu. split.
  - destruct (filter _ (conversations d)) as [|c cs] eqn:E; [done|].
    assert (Hin : c ∈ filter (λ c, c_id c = conv_id ∧ c_is_group c = false)
                        (conversations d)) by (rewrite E; left).
    apply list_elem_of_filter in Hin as [[Hid _] Hin].
    intros E'. assert (Hin' : c ∈ filter (λ c, c_id c = conv_id)
                                    (conversations d))
      by by apply list_elem_of_filter.
    rewrite E' in Hin'. by apply not_elem_of_nil in Hin'.
  - apply (elem_of_list_to_set (C := gset string)). rewrite Hs.
    by apply elem_of_list_to_set.
Qed.

Lemma existing_private_run conv_data user_id w :
  (if negb (cc_is_group conv_data)
      && bool_decide
           (length (list_set (user_id :: cc_participant_ids conv_data)) = 2)
   then
     query (λ d, find_private d
                   (list_set (user_id :: cc_participant_ids conv_data))
                   (filter (λ p, p_user_id p = user_id)
                      (conversation_participants d)))
   else ret None) w
  = (Return (existing_private conv_data user_id (supabase w)), w).
Proof. unfold existing_private. by destruct (_ && _). Qed.

Lemma filter_all {A} (P : A → Prop) `{!∀ x, Decision (P x)} (l : list A) :
  Forall P l → filter P l = l.
Proof.
  induction 1 as [|x l Hx Hl IH]; [done|].
  by rewrite filter_cons, decide_True, IH.
Qed.

Lemma filter_none {A} (P : A → Prop) `{!∀ x, Decision (P x)} (l : list A) :
  Forall (λ x, ¬ P x) l → filter P l = [].
Proof.
  induction 1 as [|x l Hx Hl IH]; [done|].
  by rewrite filter_cons, decide_False, IH.
Qed.

Lemma create_conversation_reuse conv_data user_id w conv_id :
  existing_private conv_data user_id (supabase w) = Some conv_id →
  ∃ conv,
    create_conversation conv_data user_id w = (Return conv, (uuid4 w).2)
    ∧ cr_id conv = conv_id
    ∧ (get_conversation conv_id user_id w).1 = Return conv.
Proof.
  intros Hf.
  destruct (private_match_member _ _ _ user_id
              (existing_private_Some _ _ _ _ Hf)
              (user_in_list_set _ _)) as [Hc Hu].
  destruct (get_conversation_member conv_id user_id (uuid4 w).2 Hc Hu)
    as (conv & R & Hid).
  exists conv. split; [|split; [done|]].
  - unfold create_conversation.
    erewrite bind_return by reflexivity.
    erewrite bind_return by apply existing_private_run.
    cbn [supabase]. rewrite Hf.
    exact R.
  - rewrite <- (get_conversation_same_store conv_id user_id w (uuid4 w).2)
      by done.
    by rewrite R.
Qed.

Lemma create_conversation_new conv_data user_id w :
  existing_private conv_data user_id (supabase w) = None →
  ∃ conv rows w1,
    create_conversation conv_data user_id w = (Return conv, w1)
    ∧ cr_id conv = uuid (uuid_calls w)
    ∧ get_conversation (uuid (uuid_calls w)) user_id w1 = (Return conv, w1)
    ∧ conversations (supabase w1)
      = conversations (supabase w) ++ [new_conversation conv_data user_id w]
    ∧ conversation_participants (supabase w1)
      = conversation_participants (supabase w) ++ rows
    ∧ p_user_id <$> rows
      = list_set (user_id :: cc_participant_ids conv_data)
    ∧ Forall (λ p, p_conversation_id p = uuid (uuid_calls w)) rows
    ∧ users (supabase w1) = users (supabase w)
    ∧ messages (supabase w1) = messages (supabase w)
    ∧ chat_requests (supabase w1) = chat_requests (supabase w)
    ∧ connected_users w1 = connected_users w
    ∧ user_rooms w1 = user_rooms w.
Proof.
  intros Hf. unfold create_conversation.
  erewrite bind_return by reflexivity.
  erewrite bind_return by apply existing_private_run.
  cbn [supabase]. rewrite Hf.
  erewrite bind_return by reflexivity.
  erewrite bind_return by reflexivity.
  match goal with
  | |- context [bind (add_participants ?c ?ps) _ ?w0] =>
      destruct (add_participants_run c ps w0)
        as (rows & w1 & R & Ep & Eu & Ec & E1 & E2 & E3 & E4 & E5 & E6)
  end.
  erewrite bind_return by exact R.
  cbn in Ep, E1, E2, E3, E4, E5, E6.
  destruct (get_conversation_member (uuid (uuid_calls w)) user_id w1)
    as (conv & G & Hid).
  { rewrite E1, filter_app, filter_cons. simpl.
    rewrite decide_True by done. by destruct (filter _ _). }
  { rewrite Ep, filter_app, fmap_app. apply elem_of_app. right.
    rewrite filter_all by done.
    rewrite Eu. apply user_in_list_set. }
  exists conv, rows, w1. cbn [fst snd uuid4]. by rewrite G.
Qed.




(** C10. Accepting a pending request that is flagged as a group invite
    but names no conversation does not fail.  The request is marked
    accepted and the call continues as [create_conversation] of a
    non-group conversation with the sender, made by the receiver.  With a
    fresh id at hand, the conversation answered is a non-group one whose
    participants are the sender and the receiver, found or newly created,
    and no conversation that existed before has gained a participant row. *)
Theorem accept_invite_without_conversation req_id user_id w req rest :
  filter (λ r, r_id r = req_id ∧ r_receiver_id r = user_id)
    (chat_requests (supabase w)) = req :: rest →
  r_status req = "pending" →
  r_is_group_invite req = true →
  truthy_opt (r_conversation_id req) = false →
  fresh_id (uuid (uuid_calls w)) (supabase w) →
  accept_chat_request req_id user_id w
  = create_conversation
      {| cc_name := None; cc_is_group := false;
         cc_participant_ids := [r_sender_id req] |} user_id
      (update_status "accepted" req_id w).2
  ∧ ∃ conv w1,
      accept_chat_request req_id user_id w = (Return conv, w1)
      ∧ (∀ c, c ∈ conversations (supabase w) →
           filter (λ p, p_conversation_id p = c_id c)
             (conversation_participants (supabase w1))
           = filter (λ p, p_conversation_id p = c_id c)
               (conversation_participants (supabase w)))
      ∧ (∃ row, row ∈ conversations (supabase w1)
                ∧ c_id row = cr_id conv ∧ c_is_group row = false)
      ∧ participants_of (supabase w1) (cr_id conv)
        = {[user_id; r_sender_id req]}.
Proof.
  intros E Hs Hg Hc [Hfc Hfp].
  set (direct := {| cc_name := None; cc_is_group := false;
                    cc_participant_ids := [r_sender_id req] |}).
  set (w0 := (update_status "accepted" req_id w).2).
  assert (R : accept_chat_request req_id user_id w
              = create_conversation direct user_id w0).
  { unfold accept_chat_request.
    erewrite bind_return by reflexivity. rewrite E.
    rewrite bool_decide_false by (by intros ?).
    erewrite bind_return by reflexivity. fold w0 direct.
    destruct (r_conversation_id req) as [cid|]; [|done].
    simpl in Hc. by rewrite Hg, Hc. }
  split; [exact R|]. rewrite R.
  assert (Hset : (list_to_set (list_set (user_id :: cc_participant_ids direct))
                    : gset string) = {[user_id; r_sender_id req]}).
  { rewrite list_to_set_list_set. simpl. by rewrite (right_id_L ∅ (∪)). }
  destruct (existing_private direct user_id (supabase w0))
    as [conv_id|] eqn:Hf.
  - destruct (create_conversation_reuse _ _ _ _ Hf) as (conv & R1 & Hid & _).
    apply existing_private_Some in Hf as [Hrow Hps].
    exists conv, (uuid4 w0).2. split; [done|]. split; [done|]. split.
    + destruct (filter _ (conversations (supabase w0)))
        as [|row rows] eqn:Efil; [done|].
      assert (Hin : row ∈ filter (λ c, c_id c = conv_id
                                       ∧ c_is_group c = false)
                              (conversations (supabase w0)))
        by (rewrite Efil; left).
      apply list_elem_of_filter in Hin as [[? ?] ?].
      exists row. by rewrite Hid.
    + unfold participants_of. rewrite Hid. cbn in Hps |- *.
      by rewrite Hps, <- Hset.
  - destruct (create_conversation_new _ _ _ Hf)
      as (conv & rows & w1 & R1 & Hid & _ & Ec & Ep & Eu & Hrows & _).
    cbn in Hid, Ec, Ep, Hrows.
    exists conv, w1. split; [done|]. split; [|split].
    + intros c Hcin. rewrite Ep, filter_app.
      rewrite (filter_none _ rows); [by rewrite app_nil_r|].
      eapply Forall_impl; [exact Hrows|]. intros p Hp Heq. simpl in *.
      apply Hfc. rewrite <- Hp, Heq. by apply list_elem_of_fmap_2.
    + exists (new_conversation direct user_id w0). rewrite Ec.
      split; [apply elem_of_app; right; left|]. by rewrite Hid.
    + unfold participants_of. rewrite Hid, Ep, filter_app.
      rewrite (filter_none _ (conversation_participants (supabase w))).
      * rewrite filter_all by done. simpl. by rewrite Eu, Hset.
      * apply Forall_forall. intros p Hp Heq. apply Hfp.
        rewrite <- Heq. by apply list_elem_of_fmap_2.
Qed.

(** * Further properties *)

(** ** Dictionaries *)

Lemma dict_get_set_eq {V} k (v : V) d : dict_get k (dict_set k v d) = Some v.
Proof.
  induction d as [|[k' v'] d IH]; simpl.
  - by rewrite decide_True.
  - destruct (decide (k' = k)); simpl; [by rewrite decide_True|].
    by rewrite decide_False.
Qed.

Lemma dict_get_set_ne {V} k k' (v : V) d :
  k ≠ k' → dict_get k' (dict_set k v d) = dict_get k' d.
Proof.
  intros Hne. induction d as [|[k0 v0] d IH]; simpl.
  - by rewrite decide_False.
  - destruct (decide (k0 = k)) as [->|]; simpl.
    + by rewrite !decide_False.
    + by rewrite IH.
Qed.


Lemma dict_get_None_keys {V} k (d : list (string * V)) :
  dict_get k d = None ↔ k ∉ keys d.
Proof.
  unfold keys. induction d as [|[k0 v0] d IH]; simpl.
  - split; [intros _; apply not_elem_of_nil|done].
  - rewrite not_elem_of_cons. destruct (decide (k0 = k)) as [->|Hne].
    + split; [done|]. by intros [? _].
    + rewrite IH. split; [by intros ?; split|by intros [_ ?]].
Qed.

Lemma keys_dict_set {V} k (v : V) d :
  NoDup (keys d) → NoDup (keys (dict_set k v d)).
Proof.
  unfold keys. induction d as [|[k0 v0] d IH]; simpl.
  - intros _. apply NoDup_singleton.
  - rewrite NoDup_cons. intros [Hn Hd].
    destruct (decide (k0 = k)) as [->|Hne]; simpl.
    + by apply NoDup_cons.
    + apply NoDup_cons. split; [|by apply IH].
      change (k0 ∉ keys (dict_set k v d)).
      rewrite <- dict_get_None_keys, dict_get_set_ne by done.
      by apply dict_get_None_keys.
Qed.

Lemma dict_get_del_ne {V} k k' (d : list (string * V)) :
  k ≠ k' → dict_get k' (dict_del k d) = dict_get k' d.
Proof.
  intros Hne. induction d as [|[k0 v0] d IH]; simpl; [done|].
  destruct (decide (k0 = k)) as [->|]; simpl.
  - by rewrite decide_False.
  - by rewrite IH.
Qed.

Lemma keys_dict_del {V} k (d : list (string * V)) :
  NoDup (keys d) → NoDup (keys (dict_del k d)) ∧ dict_get k (dict_del k d) = None.
Proof.
  unfold keys. induction d as [|[k0 v0] d IH]; simpl.
  - done.
  - rewrite NoDup_cons. intros [Hn Hd].
    destruct (decide (k0 = k)) as [->|Hne]; simpl.
    + split; [done|]. by apply dict_get_None_keys.
    + destruct (IH Hd) as [IH1 IH2]. rewrite decide_False by done.
      split; [|done]. apply NoDup_cons. split; [|done].
      change (k0 ∉ keys (dict_del k d)).
      rewrite <- dict_get_None_keys, dict_get_del_ne by done.
      by apply dict_get_None_keys.
Qed.

Lemma dict_del_elem_of {V} k k' (v : V) (d : list (string * V)) :
  k' ≠ k → (k', v) ∈ d → (k', v) ∈ dict_del k d.
Proof.
  intros Hne. induction d as [|[k0 v0] d IH]; simpl; [done|].
  rewrite elem_of_cons. intros [[= <- <-]|Hin].
  - rewrite decide_False by done. left.
  - destruct (decide (k0 = k)); [done|]. right. by apply IH.
Qed.

Lemma dict_get_elem_of {V} k (v : V) (d : list (string * V)) :
  NoDup (keys d) → (k, v) ∈ d → dict_get k d = Some v.
Proof.
  unfold keys. induction d as [|[k0 v0] d IH]; simpl; [by intros _ ?%not_elem_of_nil|].
  rewrite NoDup_cons, elem_of_cons. intros [Hn Hd] [[= <- <-]|Hin].
  - by rewrite decide_True.
  - rewrite decide_False; [by apply IH|]. intros ->. apply Hn.
    apply list_elem_of_fmap. by exists (k, v).
Qed.

(** ** Sessions *)

Lemma authenticate_run sid (data : event_data) token user_id w :
  data !! "token" = Some token → truthy token = true →
  verify_token token = Some user_id → truthy user_id = true →
  authenticate sid data w
  = (Return (authenticated user_id),
     log (Emit "user_online" (P_user user_id) None None)
       (with_user_rooms (dict_set user_id [] (user_rooms w))
          (with_connected_users (dict_set user_id sid (connected_users w)) w))).
Proof. intros Hd Ht Hv Hu. unfold authenticate. by rewrite Hd, Ht, Hv, Hu. Qed.

(** X1. An [authenticate] with a token the JWT check takes binds the user to
    the socket, whatever socket the user was bound to before, empties the
    list of rooms kept for the user, and tells every session that the user
    is online.  No other user's binding changes and the store is not
    touched. *)
Theorem authenticate_binds sid (data : event_data) token user_id w :
  data !! "token" = Some token → truthy token = true →
  verify_token token = Some user_id → truthy user_id = true →
  (authenticate sid data w).1 = Return (authenticated user_id)
  ∧ dict_get user_id (connected_users (authenticate sid data w).2) = Some sid
  ∧ dict_get user_id (user_rooms (authenticate sid data w).2) = Some []
  ∧ (∀ other, other ≠ user_id →
       dict_get other (connected_users (authenticate sid data w).2)
       = dict_get other (connected_users w))
  ∧ trace (authenticate sid data w).2
    = trace w ++ [Emit "user_online" (P_user user_id) None None]
  ∧ supabase (authenticate sid data w).2 = supabase w.
Proof.
  intros Hd Ht Hv Hu. unfold authenticate. rewrite Hd, Ht, Hv, Hu.
  cbn. rewrite !dict_get_set_eq. repeat split.
  intros other Hne. by apply dict_get_set_ne.
Qed.

(** X2. Without a token, with an empty one, or with one the JWT check refuses
    (or that carries no user id), [authenticate] answers with an error and
    the world is as before: nobody is bound and nothing is emitted. *)
Theorem authenticate_refuses sid (data : event_data) w :
  (∀ token, data !! "token" = Some token → truthy token = true →
            truthy_opt (verify_token token) = false) →
  ∃ error, authenticate sid data w = (Return (auth_error error), w).
Proof.
  intros Hbad. unfold authenticate.
  destruct (data !! "token") as [token|]; [|by eexists].
  destruct (truthy token) eqn:Ht; [|by eexists].
  specialize (Hbad token eq_refl Ht).
  destruct (verify_token token) as [user_id|]; [|by eexists].
  simpl in Hbad. rewrite Hbad. by eexists.
Qed.

(** X3. [disconnect] of a socket some user is bound to removes the first such
    user of the registry and that user's room list, and tells every session
    that the user is offline.  With one entry per user, that user is offline
    afterwards.  Every other user keeps the binding it had, also a user
    bound to the same socket. *)
Theorem disconnect_first_bound sid w uid :
  user_of_sid sid (connected_users w) = Some uid → truthy uid = true →
  NoDup (keys (connected_users w)) → NoDup (keys (user_rooms w)) →
  (disconnect sid w).1 = Return tt
  ∧ dict_get uid (connected_users (disconnect sid w).2) = None
  ∧ dict_get uid (user_rooms (disconnect sid w).2) = None
  ∧ (∀ other, other ≠ uid →
       dict_get other (connected_users (disconnect sid w).2)
       = dict_get other (connected_users w)
       ∧ dict_get other (user_rooms (disconnect sid w).2)
         = dict_get other (user_rooms w)
       ∧ ((other, sid) ∈ connected_users w →
          (other, sid) ∈ connected_users (disconnect sid w).2))
  ∧ trace (disconnect sid w).2
    = trace w ++ [Emit "user_offline" (P_user uid) None None]
  ∧ supabase (disconnect sid w).2 = supabase w.
Proof.
  intros E T Hc Hr. unfold disconnect, bind, global. rewrite E, T. cbn.
  destruct (keys_dict_del uid _ Hc) as [_ Hgone].
  destruct (keys_dict_del uid _ Hr) as [_ Hgone'].
  assert (Hrooms : ∀ k,
    dict_get k (user_rooms
      (if dict_in uid (user_rooms w)
       then with_user_rooms (dict_del uid (user_rooms w))
              (log (Emit "user_offline" (P_user uid) None None)
                 (with_connected_users (dict_del uid (connected_users w)) w))
       else log (Emit "user_offline" (P_user uid) None None)
              (with_connected_users (dict_del uid (connected_users w)) w)))
    = dict_get k (dict_del uid (user_rooms w))).
  { intros k. unfold dict_in.
    destruct (bool_decide (is_Some (dict_get uid (user_rooms w)))) eqn:Hb;
      [done|]. cbn.
    apply bool_decide_eq_false in Hb.
    assert (Hn : dict_get uid (user_rooms w) = None).
    { destruct (dict_get uid (user_rooms w)); [|done]. by destruct Hb. }
    destruct (decide (uid = k)) as [<-|Hne].
    - by rewrite Hn, Hgone'.
    - by rewrite dict_get_del_ne. }
  split; [by destruct (dict_in _ _)|].
  split; [by destruct (dict_in _ _)|].
  split; [by rewrite Hrooms|].
  split; [|by destruct (dict_in _ _)].
  intros other Hne. split; [|split].
  - destruct (dict_in _ _); cbn; by apply dict_get_del_ne.
  - rewrite Hrooms. by apply dict_get_del_ne.
  - intros Hin. destruct (dict_in _ _); cbn; by apply dict_del_elem_of.
Qed.

(** ** Rooms *)

Lemma join_room_lists sid (data : event_data) room_id uid w :
  data !! "room_id" = Some room_id → truthy room_id = true →
  user_of_sid sid (connected_users w) = Some uid →
  ∃ rooms, dict_get uid (user_rooms (join_room true sid data w).2) = Some rooms
           ∧ room_id ∈ rooms.
Proof.
  intros Hd Ht Hu. unfold join_room, enter_room, bind. rewrite Hd, Ht. cbn.
  rewrite Hu. cbn. rewrite dict_get_set_eq. eexists. split; [done|].
  destruct (bool_decide _) eqn:Hb.
  - apply elem_of_app. right. left.
  - apply bool_decide_eq_false in Hb. by apply dec_stable in Hb.
Qed.

(** X4. [join_room] with a room id that Socket.IO lets the socket enter
    enrols the socket in the room and, when a user is bound to the socket,
    lists the room for that user; the connection registry, the store and
    the trace stay as they were.  When Socket.IO refuses the room, the
    handler ends with that exception before the room lists are touched:
    the world is unchanged. *)
Theorem join_room_enrols sid (data : event_data) room_id uid w :
  data !! "room_id" = Some room_id → truthy room_id = true →
  user_of_sid sid (connected_users w) = Some uid →
  (room_id, sid) ∈ sio_rooms (join_room true sid data w).2
  ∧ (∃ rooms,
       dict_get uid (user_rooms (join_room true sid data w).2) = Some rooms
       ∧ room_id ∈ rooms)
  ∧ connected_users (join_room true sid data w).2 = connected_users w
  ∧ supabase (join_room true sid data w).2 = supabase w
  ∧ trace (join_room true sid data w).2 = trace w
  ∧ join_room false sid data w
    = (HTTPException 500 "Internal Server Error", w).
Proof. clear verify_token.
  intros Hd Ht Hu. unfold join_room, enter_room, bind. rewrite Hd, Ht. cbn.
  rewrite Hu. cbn. split; [set_solver|]. split; [|done].
  rewrite dict_get_set_eq. eexists. split; [done|].
  destruct (bool_decide _) eqn:Hb.
  - apply elem_of_app. right. left.
  - apply bool_decide_eq_false in Hb. by apply dec_stable in Hb.
Qed.


(** X6. [leave_room] takes the socket out of the room but never touches the
    room lists kept per user: a room joined and then left is still listed
    for the user. *)
Theorem leave_room_keeps_listing sid (data : event_data) room_id uid w :
  data !! "room_id" = Some room_id → truthy room_id = true →
  user_of_sid sid (connected_users w) = Some uid →
  let joined := (join_room true sid data w).2 in
  let left := (leave_room sid data joined).2 in
  (room_id, sid) ∈ sio_rooms joined
  ∧ ((room_id, sid) ∉ sio_rooms left)
  ∧ user_rooms left = user_rooms joined
  ∧ ∃ rooms, dict_get uid (user_rooms left) = Some rooms ∧ room_id ∈ rooms.
Proof. clear verify_token.
  intros Hd Ht Hu joined left.
  pose proof (join_room_lists sid data room_id uid w Hd Ht Hu) as Hlisted.
  assert (Hleft : left = with_sio_rooms
                           (sio_rooms joined ∖ {[(room_id, sid)]}) joined).
  { subst left. unfold leave_room. by rewrite Hd, Ht. }
  assert (Hin : (room_id, sid) ∈ sio_rooms joined).
  { subst joined. unfold join_room, enter_room, bind. rewrite Hd, Ht. cbn.
    destruct (user_of_sid _ _); cbn; set_solver. }
  rewrite Hleft. cbn. split; [done|]. split; [set_solver|].
  split; [done|]. exact Hlisted.
Qed.

(** ** What a call leaves alone *)

Definition same_store (w w' : world) : Prop := supabase w' = supabase w.

Definition same_registry (w w' : world) : Prop :=
  connected_users w' = connected_users w
  ∧ user_rooms w' = user_rooms w
  ∧ sio_rooms w' = sio_rooms w.

Definition same_world (w w' : world) : Prop := w' = w.

Global Instance same_store_refl : Reflexive same_store.
Proof. by intros w. Qed.
Global Instance same_store_trans : Transitive same_store.
Proof. intros w1 w2 w3 H12 H23. unfold same_store in *. congruence. Qed.
Global Instance same_registry_refl : Reflexive same_registry.
Proof. by intros w. Qed.
Global Instance same_registry_trans : Transitive same_registry.
Proof.
  intros w1 w2 w3 (?&?&?) (?&?&?). unfold same_registry. repeat split; congruence.
Qed.
Global Instance same_world_refl : Reflexive same_world.
Proof. by intros w. Qed.
Global Instance same_world_trans : Transitive same_world.
Proof. intros w1 w2 w3 H12 H23. unfold same_world in *. congruence. Qed.

(** A handler is taken apart bind by bind and case by case; [fin] closes
    the single actions that are left. *)
Ltac frame_step fin :=
  lazymatch goal with
  | |- keeps _ (bind _ _) => apply keeps_bind; [tc_solve | | intros ? ]
  | |- keeps _ (ret _) => apply keeps_ret; tc_solve
  | |- keeps _ (raise _ _) => apply keeps_raise; tc_solve
  | |- keeps _ (query _) => apply keeps_query; tc_solve
  | |- keeps _ (global _) => apply keeps_global; tc_solve
  | |- keeps _ (insert_message ?s _) => destruct s; fin
  | |- keeps _ (insert_chat_request ?s _) => destruct s; fin
  | |- keeps _ (match ?x with _ => _ end) => destruct x
  | |- keeps _ _ => first [ assumption | fin ]
  end.

Ltac frame := repeat frame_step ltac:(by intros ?).

(** The endpoints that only read. *)
Lemma get_user_reads t u : keeps same_world (get_user t u).
Proof. unfold get_user. frame. Qed.

Lemma get_me_reads u : keeps same_world (get_me u).
Proof. unfold get_me. frame. Qed.

Lemma get_conversation_keeps c u : keeps same_world (get_conversation c u).
Proof. unfold get_conversation. frame. Qed.

Lemma collect_conversations_reads cs u :
  keeps same_world (collect_conversations cs u).
Proof.
  induction cs as [|c cs IH]; simpl; [frame|]. intros w.
  pose proof (get_conversation_keeps c u w) as Hc. unfold same_world in Hc.
  destruct (get_conversation c u w) as [[conv|code detail] w']; simpl in Hc;
    subst w'.
  - revert w. change (keeps same_world
      (conversations <- collect_conversations cs u;; ret (conv :: conversations))).
    frame.
  - apply IH.
Qed.

Lemma get_conversations_reads u : keeps same_world (get_conversations u).
Proof.
  unfold get_conversations.
  repeat first [apply collect_conversations_reads | frame_step ltac:(by intros ?)].
Qed.

Lemma get_messages_reads c l o u : keeps same_world (get_messages c l o u).
Proof. unfold get_messages. frame. Qed.

Lemma get_chat_requests_reads u : keeps same_world (get_chat_requests u).
Proof. unfold get_chat_requests. frame. Qed.

(** The endpoints that write to the store keep the registry. *)
Lemma add_participants_registry c ps :
  keeps same_registry (add_participants c ps).
Proof. induction ps as [|p ps IH]; simpl; frame. Qed.

Lemma keeps_same_world {A} (R : relation world) `{!Reflexive R}
    (h : handler A) :
  keeps same_world h → keeps R h.
Proof. intros Hh w. by rewrite (Hh w). Qed.

Lemma create_conversation_registry cd u :
  keeps same_registry (create_conversation cd u).
Proof.
  unfold create_conversation.
  repeat first [ apply (keeps_same_world _ _ (get_conversation_keeps _ _))
               | apply add_participants_registry
               | frame_step ltac:(by intros ?) ].
Qed.

Lemma send_message_registry s m u : keeps same_registry (send_message s m u).
Proof. unfold send_message. frame. Qed.

Lemma mark_message_read_registry m u :
  keeps same_registry (mark_message_read m u).
Proof. unfold mark_message_read. frame. Qed.

Lemma create_chat_request_registry s q u :
  keeps same_registry (create_chat_request s q u).
Proof. unfold create_chat_request. frame. Qed.

Lemma accept_chat_request_registry q u :
  keeps same_registry (accept_chat_request q u).
Proof.
  unfold accept_chat_request.
  repeat first [ apply (keeps_same_world _ _ (get_conversation_keeps _ _))
               | apply create_conversation_registry
               | frame_step ltac:(by intros ?) ].
Qed.

Lemma reject_chat_request_registry q u :
  keeps same_registry (reject_chat_request q u).
Proof. unfold reject_chat_request. frame. Qed.

(** The relays keep the store and the registry. *)
Lemma webrtc_signal_registry s u : keeps same_registry (webrtc_signal s u).
Proof. unfold webrtc_signal. frame. Qed.

Lemma call_user_registry sid data : keeps same_registry (call_user sid data).
Proof. unfold call_user. frame. Qed.

Lemma typing_event_registry e sid data :
  keeps same_registry (typing_event e sid data).
Proof. unfold typing_event. frame. Qed.

Lemma forward_registry e k data : keeps same_registry (forward e k data).
Proof. unfold forward. frame. Qed.

Lemma webrtc_signal_store s u : keeps same_store (webrtc_signal s u).
Proof. unfold webrtc_signal. frame. Qed.

Lemma call_user_store sid data : keeps same_store (call_user sid data).
Proof. unfold call_user. frame. Qed.

Lemma typing_event_store e sid data : keeps same_store (typing_event e sid data).
Proof. unfold typing_event. frame. Qed.

Lemma forward_store e k data : keeps same_store (forward e k data).
Proof. unfold forward. frame. Qed.

(** The socket events that change the registry keep the store. *)
Lemma disconnect_store sid : keeps same_store (disconnect sid).
Proof.
  unfold disconnect. repeat frame_step ltac:(try by intros ?).
  intros w. unfold same_store. simpl. by destruct (dict_in _ _).
Qed.

Lemma authenticate_store sid data : keeps same_store (authenticate sid data).
Proof. unfold authenticate. frame. Qed.

Lemma join_room_store e sid data : keeps same_store (join_room e sid data).
Proof.
  unfold join_room, enter_room, uncaught.
  destruct e; repeat frame_step ltac:(try by intros ?).
  all: intros w; unfold same_store; simpl; by destruct (user_of_sid _ _).
Qed.

Lemma leave_room_store sid data : keeps same_store (leave_room sid data).
Proof. unfold leave_room. frame. Qed.

(** The calls that write to the record store, the calls that change the
    connection registry or the room membership, and the calls that only
    read. *)
Definition writes_store (c : call) : bool :=
  match c with
  | Served (CreateConversation _ _) | Served (SendMessage _ _ _)
  | Served (MarkMessageRead _ _) | Served (CreateChatRequest _ _ _)
  | Served (AcceptChatRequest _ _) | Served (RejectChatRequest _ _) => true
  | _ => false
  end.

Definition writes_registry (c : call) : bool :=
  match c with
  | Served (Disconnect _) | Served (Authenticate _ _)
  | Served (JoinRoom _ _ _) | Served (LeaveRoom _ _) => true
  | _ => false
  end.

Definition reads_only (c : call) : bool :=
  match c with
  | Served (GetConversation _ _) | Served (GetMessages _ _ _ _)
  | GetUser _ _ | GetMe _ | GetConversations _ | GetChatRequests _ => true
  | _ => false
  end.

Lemma answer_footprint (c : call) (w : world) :
  (writes_store c = false → supabase (answer c w) = supabase w)
  ∧ (writes_registry c = false → same_registry w (answer c w))
  ∧ (reads_only c = true → answer c w = w).
Proof.
  destruct c as [r| | | | | | | | | | | |]; [destruct r|..]; simpl;
    (split; [|split]); intros Hflag; try discriminate Hflag; clear Hflag;
    first
      [ reflexivity
      | apply create_conversation_registry
      | apply (get_conversation_keeps _ _ w)
      | apply (keeps_same_world same_store _ (get_conversation_keeps _ _) w)
      | apply (keeps_same_world same_registry _ (get_conversation_keeps _ _) w)
      | apply send_message_registry
      | apply (get_messages_reads _ _ _ _ w)
      | apply (keeps_same_world same_store _ (get_messages_reads _ _ _ _) w)
      | apply (keeps_same_world same_registry _ (get_messages_reads _ _ _ _) w)
      | apply mark_message_read_registry
      | apply create_chat_request_registry
      | apply accept_chat_request_registry
      | apply reject_chat_request_registry
      | apply webrtc_signal_registry | apply (webrtc_signal_store _ _ w)
      | apply call_user_registry | apply (call_user_store _ _ w)
      | apply (disconnect_store _ w) | apply (authenticate_store _ _ w)
      | apply (join_room_store _ _ _ w) | apply (leave_room_store _ _ w)
      | apply (get_user_reads _ _ w)
      | apply (keeps_same_world same_store _ (get_user_reads _ _) w)
      | apply (keeps_same_world same_registry _ (get_user_reads _ _) w)
      | apply (get_me_reads _ w)
      | apply (keeps_same_world same_store _ (get_me_reads _) w)
      | apply (keeps_same_world same_registry _ (get_me_reads _) w)
      | apply (get_conversations_reads _ w)
      | apply (keeps_same_world same_store _ (get_conversations_reads _) w)
      | apply (keeps_same_world same_registry _ (get_conversations_reads _) w)
      | apply (get_chat_requests_reads _ w)
      | apply (keeps_same_world same_store _ (get_chat_requests_reads _) w)
      | apply (keeps_same_world same_registry _ (get_chat_requests_reads _) w)
      | apply (typing_event_store _ _ _ w) | apply typing_event_registry
      | apply (forward_store _ _ _ w) | apply forward_registry ].
Qed.

(** X7. The HTTP endpoints never change who is connected or joined to which
    room; the socket events and the signalling relays never write to the
    store; the read endpoints leave the whole world, trace included, as it
    was. *)
Theorem call_footprint (c : call) (w : world) :
  (if writes_store c then True else supabase (answer c w) = supabase w)
  ∧ (if writes_registry c then True else same_registry w (answer c w))
  ∧ (if reads_only c then answer c w = w else True).
Proof.
  destruct (answer_footprint c w) as (Hs & Hr & Ho).
  split; [|split].
  - destruct (writes_store c); [done|]. by apply Hs.
  - destruct (writes_registry c); [done|]. by apply Hr.
  - destruct (reads_only c); [|done]. by apply Ho.
Qed.

(** ** One session per user *)

Definition one_entry_per_user (w : world) : Prop :=
  NoDup (keys (connected_users w)) ∧ NoDup (keys (user_rooms w)).

Lemma answer_one_entry_per_user c w :
  one_entry_per_user w → one_entry_per_user (answer c w).
Proof.
  intros [Hc Hr].
  destruct (writes_registry c) eqn:Hw.
  - destruct c as [r| | | | | | | | | | | |]; try done.
    destruct r; try done; simpl.
    + (* disconnect *)
      unfold disconnect, bind, global.
      destruct (user_of_sid _ _) as [uid|]; [|done].
      destruct (truthy uid); [|done]. cbn.
      destruct (dict_in uid (user_rooms w)); split; cbn;
        try done; by apply keys_dict_del.
    + (* authenticate *)
      unfold authenticate.
      destruct (data !! "token") as [token|]; [|done].
      destruct (truthy token); [|done].
      destruct (verify_token token) as [user_id|]; [|done].
      destruct (truthy user_id); [|done]. cbn.
      split; by apply keys_dict_set.
    + (* join_room *)
      unfold join_room, enter_room, bind.
      destruct (data !! "room_id") as [room_id|]; [|done].
      destruct (truthy room_id); [|done].
      destruct entered; [|done]. cbn.
      destruct (user_of_sid _ _); [|done]. cbn.
      split; [done|]. by apply keys_dict_set.
    + (* leave_room *)
      unfold leave_room.
      destruct (data !! "room_id") as [room_id|]; [|done].
      by destruct (truthy room_id).
  - destruct (answer_footprint c w) as (_ & Hreg & _).
    destruct (Hreg Hw) as (Ec & Er & _). unfold one_entry_per_user.
    by rewrite Ec, Er.
Qed.

(** X8. Whatever calls a freshly started server has answered, the connection
    registry holds at most one session per user and at most one room list
    per user: a new [authenticate] of a user replaces the session it had. *)
Theorem registry_one_session_per_user (registered : list user_row)
    (calls : list call) (user_id sid1 sid2 : string) :
  let w := answer_all calls (boot registered) in
  one_entry_per_user w
  ∧ ((user_id, sid1) ∈ connected_users w → (user_id, sid2) ∈ connected_users w →
     sid1 = sid2).
Proof.
  intros w.
  assert (Hone : one_entry_per_user w).
  { subst w. generalize (boot registered) (conj (NoDup_nil_2 (A:=string))
                                              (NoDup_nil_2 (A:=string))
                                            : one_entry_per_user (boot registered)).
    induction calls as [|c calls IH]; intros w0 H0; [done|].
    simpl. apply IH. by apply answer_one_entry_per_user. }
  split; [exact Hone|]. destruct Hone as [Hc _].
  intros H1%(dict_get_elem_of _ _ _ Hc) H2%(dict_get_elem_of _ _ _ Hc).
  congruence.
Qed.

(** ** Conversation views *)

Lemma get_conversation_cases conv_id user_id w :
  match filter (λ c, c_id c = conv_id) (conversations (supabase w)) with
  | [] =>
      get_conversation conv_id user_id w
      = (NotFoundError "Conversation not found", w)
  | _ :: _ =>
      if bool_decide
           (user_id ∈ p_user_id
                        <$> filter (λ p, p_conversation_id p = conv_id)
                              (conversation_participants (supabase w)))
      then ∃ view, get_conversation conv_id user_id w = (Return view, w)
                   ∧ cr_id view = conv_id
      else get_conversation conv_id user_id w = (AuthzError, w)
  end.
Proof.
  unfold get_conversation, bind, query, global.
  destruct (filter _ (conversations _)) as [|conv convs] eqn:E; [done|].
  destruct (decide (user_id ∈ p_user_id
                      <$> filter (λ p, p_conversation_id p = conv_id)
                            (conversation_participants (supabase w))))
    as [Hin|Hn].
  - rewrite bool_decide_true by done.
    rewrite bool_decide_false by (by intros ?).
    eexists. split; [done|]. cbn.
    assert (Hc : conv ∈ filter (λ c, c_id c = conv_id)
                          (conversations (supabase w))) by (rewrite E; left).
    by apply list_elem_of_filter in Hc as [Hid _].
  - rewrite bool_decide_false by done. by rewrite bool_decide_true.
Qed.

(** X9. [get_conversation] looks for the conversation before it looks at the
    participants: an unknown id is a 404 for everybody; a known one is a 403
    for a user without a participant row, and otherwise a view of that
    conversation whose participants are the registered users among its
    participant rows.  The world is never changed. *)
Theorem get_conversation_access conv_id user_id w :
  let participant_ids :=
    p_user_id <$> filter (λ p, p_conversation_id p = conv_id)
                    (conversation_participants (supabase w)) in
  match filter (λ c, c_id c = conv_id) (conversations (supabase w)) with
  | [] =>
      get_conversation conv_id user_id w
      = (NotFoundError "Conversation not found", w)
  | conv :: _ =>
      if bool_decide (user_id ∈ participant_ids)
      then ∃ view,
             get_conversation conv_id user_id w = (Return view, w)
             ∧ cr_id view = conv_id
             ∧ cr_is_group view = c_is_group conv
             ∧ cr_created_by view = c_created_by conv
             ∧ ur_id <$> cr_participants view
               = u_id <$> filter (λ u, u_id u ∈ participant_ids)
                            (users (supabase w))
      else get_conversation conv_id user_id w = (AuthzError, w)
  end.
Proof.
  intros participant_ids. unfold get_conversation, bind, query, global.
  destruct (filter _ (conversations _)) as [|conv convs] eqn:E; [done|].
  fold participant_ids.
  destruct (decide (user_id ∈ participant_ids)) as [Hin|Hn].
  - rewrite bool_decide_true by done.
    rewrite bool_decide_false by (by intros ?).
    eexists. split; [done|]. cbn.
    assert (Hc : conv ∈ filter (λ c, c_id c = conv_id)
                          (conversations (supabase w))) by (rewrite E; left).
    apply list_elem_of_filter in Hc as [Hid _].
    repeat split; [done|]. by rewrite <- list_fmap_compose.
  - rewrite bool_decide_false by done. by rewrite bool_decide_true.
Qed.

Lemma newest_first_head (ms : list message_row) :
  match order_created_at_desc ms with
  | [] => ms = []
  | msg :: _ =>
      msg ∈ ms ∧ ∀ m, m ∈ ms → String.le (m_created_at m) (m_created_at msg)
  end.
Proof.
  pose proof (merge_sort_Permutation newer_first ms) as Hp.
  pose proof (StronglySorted_merge_sort newer_first ms) as Hs.
  unfold order_created_at_desc.
  destruct (merge_sort newer_first ms) as [|msg rest].
  - symmetry in Hp. by apply Permutation_nil_r in Hp.
  - split; [rewrite <- Hp; left|].
    intros m Hm. rewrite <- Hp in Hm.
    apply StronglySorted_cons in Hs as [Hall _]. rewrite Forall_forall in Hall.
    apply elem_of_cons in Hm as [->|Hm]; [done|]. by apply Hall.
Qed.

(** X10. The last message of a view is the newest message of the conversation:
    there is none exactly when the conversation has no message, and
    otherwise no message of the conversation was created later. *)
Theorem get_conversation_last_message conv_id user_id w view :
  (get_conversation conv_id user_id w).1 = Return view →
  match cr_last_message view with
  | None =>
      filter (λ m, m_conversation_id m = conv_id) (messages (supabase w)) = []
  | Some last =>
      ∃ msg, msg ∈ messages (supabase w)
             ∧ m_conversation_id msg = conv_id
             ∧ mr_id last = m_id msg ∧ mr_content last = m_content msg
             ∧ mr_created_at last = m_created_at msg
             ∧ ∀ m, m ∈ messages (supabase w) → m_conversation_id m = conv_id →
                    String.le (m_created_at m) (mr_created_at last)
  end.
Proof.
  unfold get_conversation, bind, query, global.
  destruct (filter _ (conversations _)) as [|conv convs]; [done|].
  destruct (bool_decide _); [done|]. cbn. intros [= <-]. cbn.
  pose proof (newest_first_head
                (filter (λ m, m_conversation_id m = conv_id)
                   (messages (supabase w)))) as Hh.
  destruct (order_created_at_desc _) as [|msg rest]; cbn; [done|].
  destruct Hh as [Hin Hmax]. apply list_elem_of_filter in Hin as [Hc Hin].
  exists msg. repeat split; try done.
  intros m Hm Hmc. apply Hmax. by apply list_elem_of_filter.
Qed.

Lemma get_conversation_Return conv_id user_id w view :
  (get_conversation conv_id user_id w).1 = Return view →
  cr_id view ∈ c_id <$> conversations (supabase w)
  ∧ is_participant (supabase w) conv_id user_id
  ∧ user_id ∈ participants_of (supabase w) conv_id.
Proof.
  pose proof (get_conversation_cases conv_id user_id w) as Ha.
  destruct (filter _ (conversations _)) as [|conv convs] eqn:E;
    [by rewrite Ha|].
  destruct (bool_decide _) eqn:Hb; [|by rewrite Ha].
  destruct Ha as (view' & R & Hid). rewrite R. intros [= <-].
  apply bool_decide_eq_true in Hb.
  assert (Hc : conv ∈ filter (λ c, c_id c = conv_id)
                        (conversations (supabase w))) by (rewrite E; left).
  apply list_elem_of_filter in Hc as [Hcid Hc].
  split; [|split].
  - rewrite Hid, <- Hcid. by apply list_elem_of_fmap_2.
  - apply list_elem_of_fmap in Hb as (p & -> & Hp).
    apply list_elem_of_filter in Hp as [? ?]. by exists p.
  - by apply elem_of_list_to_set.
Qed.

(** X11. [create_conversation] always answers with a conversation, and the
    creator is one of its participants, whether or not the creator was named
    in [participant_ids].  It deletes nothing: the conversations and the
    participant rows of before are a prefix of those after, and users,
    messages and chat requests are untouched. *)
Theorem create_conversation_includes_creator conv_data user_id w :
  ∃ view w1,
    create_conversation conv_data user_id w = (Return view, w1)
    ∧ user_id ∈ participants_of (supabase w1) (cr_id view)
    ∧ conversations (supabase w) `prefix_of` conversations (supabase w1)
    ∧ conversation_participants (supabase w)
      `prefix_of` conversation_participants (supabase w1)
    ∧ users (supabase w1) = users (supabase w)
    ∧ messages (supabase w1) = messages (supabase w)
    ∧ chat_requests (supabase w1) = chat_requests (supabase w).
Proof.
  destruct (existing_private conv_data user_id (supabase w)) as [conv_id|] eqn:Hf.
  - destruct (create_conversation_reuse _ _ _ _ Hf) as (view & R & Hid & V).
    exists view, (uuid4 w).2. split; [done|].
    apply get_conversation_Return in V as (_ & _ & Hin).
    rewrite Hid. by repeat split.
  - destruct (create_conversation_new _ _ _ Hf)
      as (view & rows & w1 & R & Hid & G & Ec & Ep & _ & _ & Eu & Em & Eq & _).
    exists view, w1. split; [done|].
    assert (V : (get_conversation (uuid (uuid_calls w)) user_id w1).1
                = Return view) by by rewrite G.
    apply get_conversation_Return in V as (_ & _ & Hin).
    rewrite Hid, Ec, Ep. repeat split; try done; by eexists.
Qed.

(** X12. A group conversation, and a non-group one whose members are not exactly
    two distinct users, is never matched against the existing ones: a row is
    written for it, with its name only if it is a group, and one participant
    row per distinct member, the creator included. *)
Theorem create_conversation_without_dedup conv_data user_id w :
  cc_is_group conv_data = true
  ∨ length (list_set (user_id :: cc_participant_ids conv_data)) ≠ 2 →
  ∃ view rows w1,
    create_conversation conv_data user_id w = (Return view, w1)
    ∧ conversations (supabase w1)
      = conversations (supabase w) ++ [new_conversation conv_data user_id w]
    ∧ c_name (new_conversation conv_data user_id w)
      = (if cc_is_group conv_data then cc_name conv_data else None)
    ∧ conversation_participants (supabase w1)
      = conversation_participants (supabase w) ++ rows
    ∧ NoDup (p_user_id <$> rows)
    ∧ (∀ member, member ∈ p_user_id <$> rows
                 ↔ member = user_id ∨ member ∈ cc_participant_ids conv_data)
    ∧ Forall (λ p, p_conversation_id p = uuid (uuid_calls w)) rows.
Proof.
  intros Hcase.
  assert (Hf : existing_private conv_data user_id (supabase w) = None).
  { unfold existing_private. destruct Hcase as [->|Hlen]; [done|].
    rewrite (bool_decide_false _ Hlen). by rewrite andb_false_r. }
  destruct (create_conversation_new _ _ _ Hf)
    as (view & rows & w1 & R & _ & _ & Ec & Ep & Eu & Hrows & _).
  exists view, rows, w1. rewrite Eu. repeat split; try done.
  - unfold list_set. apply NoDup_elements.
  - unfold list_set. rewrite elem_of_elements, elem_of_list_to_set.
    by rewrite elem_of_cons.
  - unfold list_set. rewrite elem_of_elements, elem_of_list_to_set.
    by rewrite elem_of_cons.
Qed.

(** ** The list of conversations *)

Definition view_of (user_id : string) (w : world) (conv_id : string)
  : option ConversationResponse :=
  match (get_conversation conv_id user_id w).1 with
  | Return view => Some view
  | HTTPException _ _ => None
  end.

Lemma collect_conversations_run conv_ids user_id w :
  collect_conversations conv_ids user_id w
  = (Return (omap (view_of user_id w) conv_ids), w).
Proof.
  induction conv_ids as [|c cs IH]; [done|]. simpl. unfold view_of at 1.
  pose proof (get_conversation_reads c user_id w) as Hw.
  destruct (get_conversation c user_id w) as [[view|code detail] w'];
    simpl in *; subst w'.
  - unfold bind. by rewrite IH.
  - exact IH.
Qed.

Definition more_active_first (a b : ConversationResponse) : Prop :=
  String.le (activity b) (activity a).

Lemma insert_by_activity_perm c l : insert_by_activity c l ≡ₚ c :: l.
Proof.
  induction l as [|c' l IH]; simpl; [done|].
  destruct (decide _); [done|]. rewrite IH. apply Permutation_swap.
Qed.

Lemma sort_by_activity_perm l : sort_by_activity l ≡ₚ l.
Proof.
  induction l as [|c l IH]; simpl; [done|].
  by rewrite insert_by_activity_perm, IH.
Qed.

Lemma insert_by_activity_sorted c l :
  StronglySorted more_active_first l →
  StronglySorted more_active_first (insert_by_activity c l).
Proof.
  induction 1 as [|c' l Hs IH Hall]; simpl; [repeat constructor|].
  destruct (decide (String.le (activity c') (activity c))) as [Hle|Hn].
  - constructor; [by constructor|]. constructor; [done|].
    eapply Forall_impl; [exact Hall|]. intros x Hx.
    unfold more_active_first in *. by etrans.
  - constructor; [done|]. rewrite insert_by_activity_perm.
    constructor; [|done]. unfold more_active_first.
    by destruct (total String.le (activity c) (activity c')).
Qed.

Lemma sort_by_activity_sorted l :
  StronglySorted more_active_first (sort_by_activity l).
Proof.
  induction l as [|c l IH]; simpl; [constructor|].
  by apply insert_by_activity_sorted.
Qed.

(** X13. [get_conversations] never raises and changes nothing.  It lists, most
    recently active first, exactly the conversations the user has a
    participant row in and whose conversation row exists; a participant row
    whose conversation is gone is skipped without an error. *)
Theorem get_conversations_lists user_id w :
  ∃ views,
    get_conversations user_id w = (Return views, w)
    ∧ (∀ conv_id,
         conv_id ∈ cr_id <$> views
         ↔ is_participant (supabase w) conv_id user_id
           ∧ conv_id ∈ c_id <$> conversations (supabase w))
    ∧ StronglySorted more_active_first views.
Proof.
  set (rows := filter (λ p, p_user_id p = user_id)
                 (conversation_participants (supabase w))).
  exists (sort_by_activity
            (omap (view_of user_id w) (p_conversation_id <$> rows))).
  split; [|split; [|apply sort_by_activity_sorted]].
  - unfold get_conversations, bind, query. fold rows.
    destruct rows as [|p ps] eqn:E; [done|].
    by rewrite collect_conversations_run.
  - intros conv_id. rewrite sort_by_activity_perm, list_elem_of_fmap. split.
    + intros (view & -> & Hv). apply list_elem_of_omap in Hv as (c & Hc & Hv).
      unfold view_of in Hv.
      destruct (get_conversation c user_id w).1 as [view'|] eqn:G; [|done].
      injection Hv as ->.
      pose proof (get_conversation_cases c user_id w) as Ha.
      destruct (get_conversation_Return _ _ _ _ G) as (Hin & Hp & _).
      destruct (filter _ (conversations _)); [by rewrite Ha in G|].
      destruct (bool_decide _); [|by rewrite Ha in G].
      destruct Ha as (v & R & Hid). rewrite R in G. injection G as ->.
      by rewrite Hid in *.
    + intros [(p & Hp & Hc & Hu) Hex].
      pose proof (get_conversation_cases conv_id user_id w) as Ha.
      destruct (filter _ (conversations _)) as [|conv convs] eqn:E.
      { apply list_elem_of_fmap in Hex as (c & -> & Hcin).
        assert (Hf : c ∈ filter (λ c', c_id c' = c_id c)
                             (conversations (supabase w)))
          by by apply list_elem_of_filter.
        rewrite E in Hf. by apply not_elem_of_nil in Hf. }
      rewrite bool_decide_true in Ha.
      * destruct Ha as (view & R & Hid). exists view. split; [done|].
        apply list_elem_of_omap. exists conv_id. split.
        -- apply list_elem_of_fmap. exists p. split; [done|].
           by apply list_elem_of_filter.
        -- unfold view_of. by rewrite R.
      * apply list_elem_of_fmap. exists p. split; [done|].
        by apply list_elem_of_filter.
Qed.

(** ** Chat requests, beyond creation *)

(** X14. Only the receiver can answer a request: for a user who is not the
    receiver of a request with the given id, accept and reject both raise
    404 and change nothing. *)
Theorem chat_request_only_receiver req_id user_id w :
  filter (λ r, r_id r = req_id ∧ r_receiver_id r = user_id)
    (chat_requests (supabase w)) = [] →
  accept_chat_request req_id user_id w
  = (NotFoundError "Request not found", w)
  ∧ reject_chat_request req_id user_id w
    = (NotFoundError "Request not found", w).
Proof.
  intros E. unfold accept_chat_request, reject_chat_request, bind, query.
  by rewrite E.
Qed.

(** X15. Accepting a request that is no longer pending raises 400 and changes
    nothing: no status is written, no conversation is created and nothing
    is emitted. *)
Theorem accept_processed_request_refused req_id user_id w req rest :
  filter (λ r, r_id r = req_id ∧ r_receiver_id r = user_id)
    (chat_requests (supabase w)) = req :: rest →
  r_status req ≠ "pending" →
  accept_chat_request req_id user_id w
  = (HTTPException 400 "Request already processed", w).
Proof.
  intros E Hs. unfold accept_chat_request.
  erewrite bind_return by reflexivity. rewrite E.
  by rewrite bool_decide_true.
Qed.

Definition same_requests (w w' : world) : Prop :=
  chat_requests (supabase w') = chat_requests (supabase w).

Global Instance same_requests_refl : Reflexive same_requests.
Proof. by intros w. Qed.
Global Instance same_requests_trans : Transitive same_requests.
Proof. intros w1 w2 w3 H12 H23. unfold same_requests in *. congruence. Qed.

Lemma add_participants_requests c ps :
  keeps same_requests (add_participants c ps).
Proof. induction ps as [|p ps IH]; simpl; frame. Qed.

Lemma create_conversation_requests cd u :
  keeps same_requests (create_conversation cd u).
Proof.
  unfold create_conversation.
  repeat first [ apply (keeps_same_world _ _ (get_conversation_keeps _ _))
               | apply add_participants_requests
               | frame_step ltac:(by intros ?) ].
Qed.

(** The chat requests after an accept that found a pending request, and
    after a reject that found a request: the status of every row with the
    id has been overwritten, and nothing else. *)
Lemma accept_chat_request_requests req_id user_id w req rest :
  filter (λ r, r_id r = req_id ∧ r_receiver_id r = user_id)
    (chat_requests (supabase w)) = req :: rest →
  r_status req = "pending" →
  chat_requests (supabase (accept_chat_request req_id user_id w).2)
  = (λ r, if decide (r_id r = req_id) then set_status "accepted" r else r)
      <$> chat_requests (supabase w).
Proof.
  intros E Hs. unfold accept_chat_request.
  erewrite bind_return by reflexivity. rewrite E.
  rewrite bool_decide_false by (by intros ?).
  erewrite bind_return by reflexivity.
  match goal with
  | |- chat_requests (supabase (?h ?w0).2) = _ =>
      assert (Hk : keeps same_requests h)
  end.
  { repeat first [ apply (keeps_same_world _ _ (get_conversation_keeps _ _))
                 | apply create_conversation_requests
                 | frame_step ltac:(by intros ?) ]. }
  by rewrite Hk.
Qed.

Lemma reject_chat_request_requests req_id user_id w req rest :
  filter (λ r, r_id r = req_id ∧ r_receiver_id r = user_id)
    (chat_requests (supabase w)) = req :: rest →
  chat_requests (supabase (reject_chat_request req_id user_id w).2)
  = (λ r, if decide (r_id r = req_id) then set_status "rejected" r else r)
      <$> chat_requests (supabase w).
Proof.
  intros E. unfold reject_chat_request, bind, query. by rewrite E.
Qed.

Definition newer_response_first (a b : ChatRequestResponse) : Prop :=
  String.le (qr_created_at b) (qr_created_at a).

Global Instance newer_request_first_trans : Transitive newer_request_first.
Proof. intros r1 r2 r3 H12 H23. unfold newer_request_first in *. by etrans. Qed.

Global Instance newer_request_first_total : Total newer_request_first.
Proof. intros r1 r2. unfold newer_request_first. apply (total String.le). Qed.

Lemma get_chat_requests_run user_id w :
  get_chat_requests user_id w
  = (Return
       (chat_request_response (supabase w)
          <$> merge_sort newer_request_first
                (filter (λ r, r_receiver_id r = user_id
                              ∧ r_status r = "pending")
                   (chat_requests (supabase w)))), w).
Proof. done. Qed.

(** X16. [get_chat_requests] changes nothing and lists, newest first, exactly
    the pending requests whose receiver is the caller. *)
Theorem get_chat_requests_pending user_id w :
  ∃ requests,
    get_chat_requests user_id w = (Return requests, w)
    ∧ qr_id <$> requests
      ≡ₚ r_id <$> filter (λ r, r_receiver_id r = user_id
                               ∧ r_status r = "pending")
                    (chat_requests (supabase w))
    ∧ Forall (λ q, qr_receiver_id q = user_id ∧ qr_status q = "pending")
        requests
    ∧ StronglySorted newer_response_first requests.
Proof.
  set (pending := filter (λ r, r_receiver_id r = user_id
                               ∧ r_status r = "pending")
                    (chat_requests (supabase w))).
  exists (chat_request_response (supabase w)
            <$> merge_sort newer_request_first pending).
  split; [done|]. split; [|split].
  - rewrite <- list_fmap_compose.
    change (qr_id ∘ chat_request_response (supabase w)) with r_id.
    by rewrite merge_sort_Permutation.
  - apply Forall_fmap, Forall_forall. intros r Hr.
    rewrite merge_sort_Permutation in Hr.
    by apply list_elem_of_filter in Hr as [? _].
  - eapply StronglySorted_fmap; [|apply (StronglySorted_merge_sort _)].
    by intros r1 r2.
Qed.

(** X17. A request the receiver has accepted while it was pending, or has
    rejected, is no longer in the receiver's list of pending requests. *)
Theorem answered_request_not_listed req_id user_id w req rest requests :
  filter (λ r, r_id r = req_id ∧ r_receiver_id r = user_id)
    (chat_requests (supabase w)) = req :: rest →
  (r_status req = "pending" →
   (get_chat_requests user_id (accept_chat_request req_id user_id w).2).1
   = Return requests →
   req_id ∉ qr_id <$> requests)
  ∧ ((get_chat_requests user_id (reject_chat_request req_id user_id w).2).1
     = Return requests →
     req_id ∉ qr_id <$> requests).
Proof.
  intros E.
  assert (Hgone : ∀ status w1,
    status ≠ "pending" →
    chat_requests (supabase w1)
    = (λ r, if decide (r_id r = req_id) then set_status status r else r)
        <$> chat_requests (supabase w) →
    (get_chat_requests user_id w1).1 = Return requests →
    req_id ∉ qr_id <$> requests).
  { intros status w1 Hst Hw1 Hget.
    rewrite get_chat_requests_run in Hget. injection Hget as <-.
    rewrite <- list_fmap_compose.
    change (qr_id ∘ chat_request_response (supabase w1)) with r_id.
    rewrite merge_sort_Permutation, Hw1.
    intros Hin. apply list_elem_of_fmap in Hin as (r & Hid & Hr).
    apply list_elem_of_filter in Hr as [[_ Hpend] Hr].
    apply list_elem_of_fmap in Hr as (r0 & -> & _).
    destruct (decide (r_id r0 = req_id)); [by simpl in Hpend|done]. }
  split.
  - intros Hs. apply (Hgone "accepted"); [done|].
    by eapply accept_chat_request_requests.
  - apply (Hgone "rejected"); [done|].
    by eapply reject_chat_request_requests.
Qed.

(** X18. Accepting a pending group invite that names a conversation marks the
    request accepted and writes a participant row for the receiver in that
    conversation before the conversation is looked up: when the conversation
    exists its view is answered; when it does not, the call raises 404 and
    the accepted status and the participant row stay behind. *)
Theorem accept_group_invite req_id user_id w req rest conversation_id :
  filter (λ r, r_id r = req_id ∧ r_receiver_id r = user_id)
    (chat_requests (supabase w)) = req :: rest →
  r_status req = "pending" →
  r_is_group_invite req = true →
  r_conversation_id req = Some conversation_id →
  truthy conversation_id = true →
  let w1 := (accept_chat_request req_id user_id w).2 in
  conversation_participants (supabase w1)
  = conversation_participants (supabase w)
    ++ [ {| p_id := uuid (uuid_calls w);
            p_conversation_id := conversation_id; p_user_id := user_id;
            p_joined_at := now (clock_calls w) |} ]
  ∧ conversations (supabase w1) = conversations (supabase w)
  ∧ chat_requests (supabase w1)
    = (λ r, if decide (r_id r = req_id) then set_status "accepted" r else r)
        <$> chat_requests (supabase w)
  ∧ match filter (λ c, c_id c = conversation_id)
            (conversations (supabase w)) with
    | [] =>
        (accept_chat_request req_id user_id w).1
        = NotFoundError "Conversation not found"
    | _ :: _ =>
        ∃ view, (accept_chat_request req_id user_id w).1 = Return view
                ∧ cr_id view = conversation_id
    end.
Proof.
  intros E Hs Hg Hc Ht w1.
  set (row := {| p_id := uuid (uuid_calls w);
                 p_conversation_id := conversation_id; p_user_id := user_id;
                 p_joined_at := now (clock_calls w) |}).
  set (w0 := (insert_participant row
                (utcnow (uuid4 (update_status "accepted" req_id w).2).2).2).2).
  assert (R : accept_chat_request req_id user_id w
              = get_conversation conversation_id user_id w0).
  { unfold accept_chat_request.
    erewrite bind_return by reflexivity. rewrite E.
    rewrite bool_decide_false by (by intros ?).
    erewrite bind_return by reflexivity. rewrite Hc, Hg, Ht. cbn [andb].
    erewrite bind_return by reflexivity.
    erewrite bind_return by reflexivity.
    by erewrite bind_return by reflexivity. }
  assert (Ec : conversations (supabase w0) = conversations (supabase w))
    by done.
  assert (Ep : conversation_participants (supabase w0)
               = conversation_participants (supabase w) ++ [row]) by done.
  subst w1. rewrite R, get_conversation_reads.
  split; [exact Ep|]. split; [exact Ec|]. split; [done|].
  pose proof (get_conversation_cases conversation_id user_id w0) as Ha.
  rewrite Ec, Ep in Ha.
  destruct (filter _ (conversations (supabase w))) as [|conv convs];
    [by rewrite Ha|].
  rewrite bool_decide_true in Ha.
  - destruct Ha as (view & -> & Hid). by exists view.
  - rewrite filter_app, fmap_app, filter_cons. cbn.
    rewrite decide_True by done. apply elem_of_app. right. left.
Qed.

(** ** Nothing is ever deleted *)

(** [l'] is [l], row by row up to [same], followed by new rows. *)
Definition grows {A} (same : relation A) (l l' : list A) : Prop :=
  ∃ kept added, l' = kept ++ added ∧ Forall2 same l kept.

Lemma grows_refl {A} (same : relation A) `{!Reflexive same} l : grows same l l.
Proof. exists l, []. split; [by rewrite app_nil_r|]. by apply Forall_Forall2_diag, Forall_true. Qed.

Lemma grows_trans {A} (same : relation A) `{!Transitive same} l1 l2 l3 :
  grows same l1 l2 → grows same l2 l3 → grows same l1 l3.
Proof.
  intros (k1 & a1 & -> & H1) (k2 & a2 & -> & H2).
  apply Forall2_app_inv_l in H2 as (k21 & k22 & Hk1 & Hk2 & ->).
  exists k21, (k22 ++ a2). split; [by rewrite app_assoc|].
  eapply Forall2_trans; [|exact H1|exact Hk1]. intros x y z. apply transitivity.
Qed.

Lemma grows_app {A} (same : relation A) `{!Reflexive same} l added :
  grows same l (l ++ added).
Proof. exists l, added. split; [done|]. by apply Forall_Forall2_diag, Forall_true. Qed.

Lemma grows_fmap {A} (same : relation A) (f : A → A) l :
  (∀ x, same x (f x)) → grows same l (f <$> l).
Proof.
  intros Hf. exists (f <$> l), []. split; [by rewrite app_nil_r|].
  apply Forall2_fmap_r, Forall_Forall2_diag, Forall_true. exact Hf.
Qed.

(** What never changes in a message, and what may change in a chat
    request: only the status, and never back to pending. *)
Definition same_message (m m' : message_row) : Prop :=
  m_id m' = m_id m ∧ m_conversation_id m' = m_conversation_id m
  ∧ m_sender_id m' = m_sender_id m ∧ m_content m' = m_content m
  ∧ m_message_type m' = m_message_type m ∧ m_created_at m' = m_created_at m.

Definition request_advances (r r' : chat_request_row) : Prop :=
  r_id r' = r_id r ∧ r_sender_id r' = r_sender_id r
  ∧ r_receiver_id r' = r_receiver_id r ∧ r_message r' = r_message r
  ∧ r_is_group_invite r' = r_is_group_invite r
  ∧ r_conversation_id r' = r_conversation_id r
  ∧ r_created_at r' = r_created_at r
  ∧ (r_status r ≠ "pending" → r_status r' ≠ "pending").

Global Instance same_message_refl : Reflexive same_message.
Proof. by intros m. Qed.
Global Instance same_message_trans : Transitive same_message.
Proof.
  intros m1 m2 m3 (?&?&?&?&?&?) (?&?&?&?&?&?).
  unfold same_message. repeat split; congruence.
Qed.
Global Instance request_advances_refl : Reflexive request_advances.
Proof. by intros r. Qed.
Global Instance request_advances_trans : Transitive request_advances.
Proof.
  intros r1 r2 r3 (?&?&?&?&?&?&?&H12) (?&?&?&?&?&?&?&H23).
  unfold request_advances. repeat split; try congruence. auto.
Qed.

Definition store_grows (d d' : db) : Prop :=
  conversations d `prefix_of` conversations d'
  ∧ conversation_participants d `prefix_of` conversation_participants d'
  ∧ grows same_message (messages d) (messages d')
  ∧ grows request_advances (chat_requests d) (chat_requests d').

Definition world_grows (w w' : world) : Prop :=
  store_grows (supabase w) (supabase w').

Global Instance world_grows_refl : Reflexive world_grows.
Proof.
  intros w. repeat split; try done; by apply grows_refl.
Qed.

Global Instance world_grows_trans : Transitive world_grows.
Proof.
  intros w1 w2 w3 (Hc & Hp & Hm & Hq) (Hc' & Hp' & Hm' & Hq').
  split; [by etrans|]. split; [by etrans|].
  split; [exact (grows_trans same_message _ _ _ Hm Hm')
         |exact (grows_trans request_advances _ _ _ Hq Hq')].
Qed.

Lemma world_grows_same w w' : supabase w' = supabase w → world_grows w w'.
Proof. intros E. unfold world_grows. rewrite E. apply world_grows_refl. Qed.

Lemma grows_insert_conversation row : keeps world_grows (insert_conversation row).
Proof.
  intros w. repeat split; cbn; try done; try (by apply grows_refl).
  by eexists.
Qed.

Lemma grows_insert_participant row : keeps world_grows (insert_participant row).
Proof.
  intros w. repeat split; cbn; try done; try (by apply grows_refl).
  by eexists.
Qed.

Lemma grows_insert_message stored row :
  keeps world_grows (insert_message stored row).
Proof.
  intros w. destruct stored; [|by apply world_grows_same].
  repeat split; cbn; try done; try (by apply grows_refl).
  by apply grows_app.
Qed.

Lemma grows_insert_chat_request stored row :
  keeps world_grows (insert_chat_request stored row).
Proof.
  intros w. destruct stored; [|by apply world_grows_same].
  repeat split; cbn; try done; try (by apply grows_refl).
  by apply grows_app.
Qed.

Lemma grows_update_read_by read_by msg_id :
  keeps world_grows (update_read_by read_by msg_id).
Proof.
  intros w. repeat split; cbn; try done; try (by apply grows_refl).
  apply grows_fmap. intros m. by destruct (decide _).
Qed.

Lemma grows_update_status status req_id :
  status ≠ "pending" → keeps world_grows (update_status status req_id).
Proof.
  intros Hs w. repeat split; cbn; try done; try (by apply grows_refl).
  apply grows_fmap. intros r. destruct (decide _); [|done].
  by repeat split.
Qed.

Ltac grows_step :=
  lazymatch goal with
  | |- keeps _ (insert_conversation _) => apply grows_insert_conversation
  | |- keeps _ (insert_participant _) => apply grows_insert_participant
  | |- keeps _ (insert_message _ _) => apply grows_insert_message
  | |- keeps _ (insert_chat_request _ _) => apply grows_insert_chat_request
  | |- keeps _ (update_read_by _ _) => apply grows_update_read_by
  | |- keeps _ (update_status _ _) => apply grows_update_status; done
  | |- keeps _ (get_conversation _ _) =>
      apply (keeps_same_world _ _ (get_conversation_keeps _ _))
  | |- _ => frame_step ltac:(by (intros ?; apply world_grows_same))
  end.

Lemma add_participants_grows c ps : keeps world_grows (add_participants c ps).
Proof. induction ps as [|p ps IH]; simpl; repeat grows_step. Qed.

Lemma create_conversation_grows cd u :
  keeps world_grows (create_conversation cd u).
Proof.
  unfold create_conversation.
  repeat first [apply add_participants_grows | grows_step].
Qed.

Lemma answer_grows c : ∀ w, world_grows w (answer c w).
Proof.
  intros w. destruct (writes_store c) eqn:Hw.
  - destruct c as [r| | | | | | | | | | | |]; try done.
    destruct r; try done; simpl; revert w;
      match goal with
      | |- ∀ w, world_grows w (?h w).2 => change (keeps world_grows h)
      end.
    + apply create_conversation_grows.
    + unfold send_message. repeat grows_step.
    + unfold mark_message_read. repeat grows_step.
    + unfold create_chat_request. repeat grows_step.
    + unfold accept_chat_request.
      repeat first [apply create_conversation_grows | grows_step].
    + unfold reject_chat_request. repeat grows_step.
  - destruct (answer_footprint c w) as (Hs & _).
    by apply world_grows_same, Hs.
Qed.

(** X19. Whatever calls of [call] the server answers, the tables of the
    conversations only grow: conversation rows and participant rows are
    never changed or removed; a message keeps everything but its [read_by];
    a chat request keeps everything but its status, and a status that is not
    pending never becomes pending again.  (Nothing is said of the [users]
    table, which [register] and [update_profile] write.) *)
Theorem store_only_grows (calls : list call) (w : world) :
  store_grows (supabase w) (supabase (answer_all calls w)).
Proof.
  revert w. induction calls as [|c calls IH]; intros w.
  - apply world_grows_refl.
  - simpl. apply (world_grows_trans w (answer c w)); [apply answer_grows|apply IH].
Qed.

(** ** Messages, beyond sending *)

Lemma send_message_grows stored msg_data user_id :
  keeps world_grows (send_message stored msg_data user_id).
Proof. unfold send_message. repeat grows_step. Qed.

Lemma get_messages_page conv_id (limit offset : Z) user_id w :
  is_participant (supabase w) conv_id user_id →
  (0 ≤ offset)%Z → (0 ≤ limit)%Z →
  ∃ senders : string → option user_row,
    get_messages conv_id limit offset user_id w
    = (Return (reverse ((λ m, format_message m (senders (m_sender_id m)))
                          <$> page conv_id limit offset (supabase w))), w).
Proof.
  intros Hp Ho Hl. rewrite (get_messages_run _ _ _ _ _ Hp).
  rewrite range_page by done. cbv zeta. by eexists (λ s, _ !! s).
Qed.

(** X20. A message that was sent is fetched: after a participant's
    [send_message] the store took, any participant who fetches the
    conversation from offset 0 with a limit that covers it gets the message
    back, with the sender as its only reader, among one more message than
    the conversation had. *)
Theorem send_then_fetch (msg_data : MessageCreate) (sender reader : string)
    (limit : Z) (w : world) :
  let conv_id := mc_conversation_id msg_data in
  let before :=
    filter (λ m, m_conversation_id m = conv_id) (messages (supabase w)) in
  is_participant (supabase w) conv_id sender →
  is_participant (supabase w) conv_id reader →
  (Z.of_nat (S (length before)) ≤ limit)%Z →
  let w1 := (send_message true msg_data sender w).2 in
  ∃ msgs sent,
    get_messages conv_id limit 0 reader w1 = (Return msgs, w1)
    ∧ sent ∈ msgs
    ∧ mr_id sent = uuid (uuid_calls w)
    ∧ mr_sender_id sent = sender
    ∧ mr_content sent = mc_content msg_data
    ∧ mr_read_by sent = [sender]
    ∧ length msgs = S (length before).
Proof.
  intros conv_id before Hs Hr Hlimit w1.
  destruct (send_message_participant true _ _ _ Hs) as (_ & M & _).
  fold w1 in M.
  assert (Hr1 : is_participant (supabase w1) conv_id reader).
  { destruct Hr as (p & Hp & Hc & Hu). exists p. split; [|done].
    destruct (send_message_grows true msg_data sender w)
      as (_ & Hpre & _).
    by eapply elem_of_prefix. }
  destruct (get_messages_page conv_id limit 0 reader w1 Hr1)
    as (senders & G); [done|lia|].
  pose proof (merge_sort_Permutation newer_first
                (filter (λ m, m_conversation_id m = conv_id)
                   (messages (supabase w1)))) as Hperm.
  fold (order_created_at_desc
          (filter (λ m, m_conversation_id m = conv_id)
             (messages (supabase w1)))) in Hperm.
  assert (Hfil : filter (λ m, m_conversation_id m = conv_id)
                   (messages (supabase w1))
                 = before ++ [new_message msg_data sender w]).
  { rewrite M, filter_app, filter_cons. cbn. by rewrite decide_True. }
  assert (Hpage : page conv_id limit 0 (supabase w1)
                  = order_created_at_desc (before ++ [new_message msg_data sender w])).
  { unfold page, newest_first. rewrite Hfil, drop_0. apply take_ge.
    rewrite Hfil in Hperm. rewrite Hperm, length_app. simpl. lia. }
  exists (reverse ((λ m, format_message m (senders (m_sender_id m)))
                     <$> page conv_id limit 0 (supabase w1))),
         (format_message (new_message msg_data sender w) (senders sender)).
  split; [done|]. split; [|repeat split].
  - rewrite elem_of_reverse. apply list_elem_of_fmap.
    exists (new_message msg_data sender w). split; [done|].
    rewrite Hpage. unfold order_created_at_desc.
    rewrite merge_sort_Permutation. apply elem_of_app. right. left.
  - rewrite length_reverse, length_fmap, Hpage. unfold order_created_at_desc.
    rewrite merge_sort_Permutation, length_app. simpl. lia.
Qed.

(** X21. [get_messages] is refused with 403 for a user without a participant row
    in the conversation, and for a participant it never answers with more
    messages than the limit asks for. *)
Theorem get_messages_guard conv_id (limit offset : Z) user_id w :
  (¬ is_participant (supabase w) conv_id user_id →
   get_messages conv_id limit offset user_id w = (AuthzError, w))
  ∧ ∀ msgs, (get_messages conv_id limit offset user_id w).1 = Return msgs →
            is_participant (supabase w) conv_id user_id
            ∧ (Z.of_nat (length msgs) ≤ Z.max 0 limit)%Z.
Proof.
  split.
  - rewrite is_participant_filter. intros Hn.
    unfold get_messages, bind, query.
    destruct (filter _ _); [done|]. by destruct Hn.
  - intros msgs Hm.
    assert (Hp : is_participant (supabase w) conv_id user_id).
    { apply is_participant_filter. intros E. revert Hm.
      unfold get_messages, bind, query. by rewrite E. }
    split; [done|].
    rewrite (get_messages_run _ _ _ _ _ Hp) in Hm.
    destruct (range _ _ _) as [rows|] eqn:Hrange; [|done].
    apply range_page_inv in Hrange as (_ & _ & ->).
    cbv zeta in Hm. injection Hm as <-.
    rewrite length_reverse, length_fmap. unfold page.
    rewrite length_take. lia.
Qed.

(** X22. [mark_message_read] changes nothing but the [read_by] of the messages
    with the given id: every other message, and every other table, is as it
    was. *)
Theorem mark_message_read_frame msg_id user_id w :
  let d := supabase w in
  let d1 := supabase (mark_message_read msg_id user_id w).2 in
  users d1 = users d ∧ conversations d1 = conversations d
  ∧ conversation_participants d1 = conversation_participants d
  ∧ chat_requests d1 = chat_requests d
  ∧ Forall2 (λ m m', same_message m m' ∧ (m_id m ≠ msg_id → m' = m))
      (messages d) (messages d1).
Proof.
  assert (Hsame : Forall2 (λ m m', same_message m m' ∧ (m_id m ≠ msg_id → m' = m))
                    (messages (supabase w)) (messages (supabase w))).
  { apply Forall_Forall2_diag, Forall_true. by intros m. }
  destruct (filter (λ m, m_id m = msg_id) (messages (supabase w)))
    as [|msg rest] eqn:E.
  - assert (R : mark_message_read msg_id user_id w
                = (NotFoundError "Message not found", w)).
    { unfold mark_message_read, bind, query. by rewrite E. }
    by rewrite R.
  - destruct (decide (user_id ∈ m_read_by msg)) as [Hin|Hn].
    + by rewrite (mark_message_read_seen _ _ _ _ _ E Hin).
    + destruct (mark_message_read_new _ _ _ _ _ E Hn) as [R _].
      rewrite R. cbn. repeat split.
      apply Forall2_fmap_r, Forall_Forall2_diag, Forall_true.
      intros m. cbn. by destruct (decide (m_id m = msg_id)).
Qed.

(** ** Notification of a new chat request *)

(** X23. When [create_chat_request] has stored a request, the receiver is told
    at once if connected: the response is emitted to the receiver's socket
    and to nobody else; a receiver who is not connected is not told.  When
    the store did not take the row, the call raises 500, nothing is emitted
    and the store is as before. *)
Theorem create_chat_request_notifies (req_data : ChatRequestCreate)
    (user_id : string) (w : world) :
  pending_between user_id (qc_receiver_id req_data) (supabase w) = [] →
  (∃ response,
     (create_chat_request true req_data user_id w).1 = Return response
     ∧ trace (create_chat_request true req_data user_id w).2
       = trace w
         ++ Insert "chat_requests"
            :: match dict_get (qc_receiver_id req_data) (connected_users w) with
               | Some sid =>
                   [Emit "new_chat_request" (P_chat_request response)
                      (Some sid) None]
               | None => []
               end)
  ∧ (create_chat_request false req_data user_id w).1
    = StoreError "Failed to create request"
  ∧ supabase (create_chat_request false req_data user_id w).2 = supabase w
  ∧ trace (create_chat_request false req_data user_id w).2
    = trace w ++ [Insert "chat_requests"].
Proof.
  intros Hp. unfold create_chat_request, bind, query.
  unfold pending_between in Hp. rewrite Hp. cbn.
  split; [|done]. eexists. 
  destruct (dict_get _ _); cbn; split; try done; by rewrite <- app_assoc.
Qed.

(** ** Presence, as other users see it *)

Lemma user_of_sid_set sid user_id cu :
  unbound sid cu → user_of_sid sid (dict_set user_id sid cu) = Some user_id.
Proof.
  induction cu as [|[k s] cu IH]; intros Hu; simpl.
  - by rewrite decide_True.
  - assert (Hs : s ≠ sid) by (eapply Hu; left).
    destruct (decide (k = user_id)); simpl.
    + by rewrite decide_True.
    + rewrite decide_False by done. apply IH.
      intros k' s' Hin. eapply Hu. by right.
Qed.

Lemma authenticate_one_entry_per_user sid (data : event_data) w :
  one_entry_per_user w → one_entry_per_user (authenticate sid data w).2.
Proof.
  intros [Hc Hr]. unfold authenticate.
  destruct (data !! "token") as [token|]; [|done].
  destruct (truthy token); [|done].
  destruct (verify_token token) as [user_id|]; [|done].
  destruct (truthy user_id); [|done]. cbn.
  split; by apply keys_dict_set.
Qed.

(** X24. A registered user who authenticates on a socket no other user is bound
    to is shown as online by [get_user], and as offline again once that
    socket has disconnected. *)
Theorem presence_round_trip sid (data : event_data) token user_id viewer w
    row rest :
  data !! "token" = Some token → truthy token = true →
  verify_token token = Some user_id → truthy user_id = true →
  filter (λ u, u_id u = user_id) (users (supabase w)) = row :: rest →
  unbound sid (connected_users w) → one_entry_per_user w →
  let w1 := (authenticate sid data w).2 in
  let w2 := (disconnect sid w1).2 in
  ∃ online offline,
    (get_user user_id viewer w1).1 = Return online
    ∧ ur_is_online online = true
    ∧ (get_user user_id viewer w2).1 = Return offline
    ∧ ur_is_online offline = false.
Proof.
  intros Hd Ht Hv Hu Hrow Hun Hone w1 w2.
  pose proof (authenticate_run sid data token user_id w Hd Ht Hv Hu) as Hrun.
  assert (Hbound : dict_get user_id (connected_users w1) = Some sid).
  { subst w1. rewrite Hrun. cbn. apply dict_get_set_eq. }
  assert (Hstore : supabase w1 = supabase w) by (subst w1; by rewrite Hrun).
  assert (Hone1 : one_entry_per_user w1)
    by apply (authenticate_one_entry_per_user sid data w Hone).
  assert (Hfirst : user_of_sid sid (connected_users w1) = Some user_id).
  { subst w1. rewrite Hrun. cbn. by apply user_of_sid_set. }
  destruct Hone1 as [Hc1 Hr1].
  destruct (disconnect_bound sid w1 user_id Hfirst Hu) as [Hdel _].
  fold w2 in Hdel.
  assert (Hgone : dict_get user_id (connected_users w2) = None).
  { rewrite Hdel. by apply keys_dict_del. }
  pose proof (disconnect_store sid w1) as Hstore2. fold w2 in Hstore2.
  unfold same_store in Hstore2.
  exists (format_user (connected_users w1) row),
         (format_user (connected_users w2) row).
  assert (Hid : u_id row = user_id).
  { assert (Hin : row ∈ filter (λ u, u_id u = user_id) (users (supabase w)))
      by (rewrite Hrow; left).
    by apply list_elem_of_filter in Hin as [? _]. }
  unfold get_user, bind, query, global.
  rewrite Hstore2, Hstore, Hrow. cbn. unfold dict_in.
  rewrite Hid, Hbound, Hgone. by repeat split.
Qed.

End server.

(** ** Concrete runs *)

(** A process whose [n]-th uuid is "uuid-n" and whose clock reads "t-n" at
    its [n]-th reading; every token is taken as the id of its user. *)
Definition uuid_n (n : nat) : string := "uuid-" +:+ pretty n.
Definition clock_n (n : nat) : string := "t-" +:+ pretty n.
Definition token_is_user (token : string) : option string := Some token.

Definition registered : list user_row :=
  [ {| u_id := "alice"; u_email := "alice@example.org"; u_username := "Alice";
       u_password_hash := "hash-a"; u_avatar_url := None;
       u_created_at := "t" |};
    {| u_id := "bob"; u_email := "bob@example.org"; u_username := "Bob";
       u_password_hash := "hash-b"; u_avatar_url := Some "bob.png";
       u_created_at := "t" |} ].

Definition alice_asks_bob : request :=
  CreateChatRequest true
    {| qc_receiver_id := "bob"; qc_message := Some "hi";
       qc_is_group_invite := false; qc_conversation_id := None |} "alice".

(** The world after alice has asked bob and bob has accepted. *)
Definition after_accept : world :=
  run uuid_n clock_n token_is_user
    [alice_asks_bob; AcceptChatRequest "uuid-0" "bob"] (boot registered).

(** C1, at a failing input.  Once bob has accepted alice's request, a
    second accept by bob raises the state error and changes nothing, but a
    reject by bob answers "rejected" and overwrites the status: the request
    has gone from one terminal state to the other. *)
Theorem reject_overwrites_accepted :
  r_status <$> chat_requests (supabase after_accept) = ["accepted"]
  ∧ terminal "accepted"
  ∧ accept_chat_request uuid_n clock_n "uuid-0" "bob" after_accept
    = (StateError, after_accept)
  ∧ (reject_chat_request "uuid-0" "bob" after_accept).1 = Return "rejected"
  ∧ r_status
      <$> chat_requests
            (supabase (reject_chat_request "uuid-0" "bob" after_accept).2)
    = ["rejected"].
Proof.
  split; [by vm_compute|]. split; [by left|].
  split; [by vm_compute|]. split; by vm_compute.
Qed.

(** *** Witnesses *)

(** Alice is connected on one socket; another socket disconnects. *)
Definition alice_online : world :=
  run uuid_n clock_n token_is_user
    [Authenticate "sid-1" {[ "token" := "alice" ]}] (boot registered).

Lemma disconnect_unbound_noop_witness :
  unbound "sid-2" (connected_users alice_online)
  ∧ disconnect "sid-2" alice_online = (Return tt, alice_online).
Proof.
  assert (H : unbound "sid-2" (connected_users alice_online)).
  { intros uid s Hin. vm_compute in Hin.
    apply list_elem_of_singleton in Hin. by injection Hin as _ ->. }
  split; [exact H|]. exact (disconnect_unbound_noop "sid-2" alice_online H).
Defined.

(** C7, at a failing input.  Alice is connected and bob is not.  A
    [webrtc_offer] for alice is passed on to her session and one for bob is
    dropped, and the handler answers the same, nothing, in both cases: the
    sender is not told that bob is offline. *)
Lemma webrtc_offer_hides_absence :
  dict_get "alice" (connected_users alice_online) = Some "sid-1"
  ∧ dict_get "bob" (connected_users alice_online) = None
  ∧ webrtc_offer "sid-2" {[ "target_user_id" := "alice" ]} alice_online
    = (Return tt,
       log (Emit "webrtc_offer" (P_data {[ "target_user_id" := "alice" ]})
              (Some "sid-1") None) alice_online)
  ∧ webrtc_offer "sid-2" {[ "target_user_id" := "bob" ]} alice_online
    = (Return tt, alice_online)
  ∧ (webrtc_offer "sid-2" {[ "target_user_id" := "alice" ]} alice_online).1
    = (webrtc_offer "sid-2" {[ "target_user_id" := "bob" ]} alice_online).1.
Proof. repeat split; by vm_compute. Qed.

(** Alice says hi in the conversation bob's accept created. *)
Definition hello_data : MessageCreate :=
  {| mc_conversation_id := "uuid-1"; mc_content := "hi";
     mc_message_type := "text" |}.

Definition after_hello : world :=
  run uuid_n clock_n token_is_user [SendMessage true hello_data "alice"]
    after_accept.

Definition hello : message_row :=
  {| m_id := "uuid-4"; m_conversation_id := "uuid-1"; m_sender_id := "alice";
     m_content := "hi"; m_message_type := "text"; m_read_by := ["alice"];
     m_created_at := "t-4" |}.

Lemma mark_read_idempotent_witness :
  let w1 := (mark_message_read "uuid-4" "bob" after_hello).2 in
  ("bob" ∈ m_read_by hello →
   mark_message_read "uuid-4" "bob" after_hello = (Return "ok", after_hello))
  ∧ ("bob" ∉ m_read_by hello →
     (mark_message_read "uuid-4" "bob" after_hello).1 = Return "ok"
     ∧ trace w1
       = trace after_hello
         ++ [Update "messages";
             Emit "message_read" (P_message_read "uuid-4" "bob")
               (Some (m_conversation_id hello)) None]
     ∧ m_read_by <$> head (filter (λ m, m_id m = "uuid-4")
                             (messages (supabase w1)))
       = Some (m_read_by hello ++ ["bob"]))
  ∧ mark_message_read "uuid-4" "bob" w1 = (Return "ok", w1).
Proof.
  apply (mark_read_idempotent "uuid-4" "bob" after_hello hello []).
  vm_compute. reflexivity.
Defined.

(** Bob answers and alice writes again: three messages, stored in the order
    they were sent. *)
Definition three_messages : world :=
  run uuid_n clock_n token_is_user
    [ SendMessage true
        {| mc_conversation_id := "uuid-1"; mc_content := "hello";
           mc_message_type := "text" |} "bob";
      SendMessage true
        {| mc_conversation_id := "uuid-1"; mc_content := "how are you";
           mc_message_type := "text" |} "alice" ]
    after_hello.

(** The second page of size 2 ([limit] 2, [offset] 1) skips the newest
    message and gives the two older ones, the oldest first. *)
Lemma get_messages_chronological_witness :
  is_participant (supabase three_messages) "uuid-1" "bob"
  ∧ m_content <$> messages (supabase three_messages)
    = ["hi"; "hello"; "how are you"]
  ∧ m_content <$> newest_first "uuid-1" (supabase three_messages)
    = ["how are you"; "hello"; "hi"]
  ∧ ∃ msgs : list MessageResponse,
      get_messages "uuid-1" 2 1 "bob" three_messages
      = (Return msgs, three_messages)
      ∧ mr_content <$> msgs = ["hi"; "hello"]
      ∧ mr_created_at <$> msgs = ["t-4"; "t-5"]
      ∧ chronological msgs.
Proof.
  assert (H : is_participant (supabase three_messages) "uuid-1" "bob").
  { eexists {| p_id := "uuid-3"; p_conversation_id := "uuid-1";
               p_user_id := "bob"; p_joined_at := "t-3" |}.
    split; [|by split]. vm_compute. right. left. }
  destruct (get_messages_chronological "uuid-1" 2 1 "bob" three_messages H)
    as (_ & _ & Hpage & Hret & _).
  destruct (Hpage ltac:(lia) ltac:(lia)) as (senders & G).
  split; [exact H|]. split; [by vm_compute|]. split; [by vm_compute|].
  eexists. split; [exact G|]. split; [by vm_compute|].
  split; [by vm_compute|]. apply Hret. by rewrite G.
Defined.




(** Alice's request to bob is flagged as a group invite but names no
    conversation. *)
Definition stray_invite : world :=
  run uuid_n clock_n token_is_user
    [CreateChatRequest true
       {| qc_receiver_id := "bob"; qc_message := None;
          qc_is_group_invite := true; qc_conversation_id := None |} "alice"]
    (boot registered).

Definition stray_request : chat_request_row :=
  {| r_id := "uuid-0"; r_sender_id := "alice"; r_receiver_id := "bob";
     r_message := None; r_status := "pending"; r_is_group_invite := true;
     r_conversation_id := None; r_created_at := "t-0" |}.

Lemma accept_invite_without_conversation_witness :
  accept_chat_request uuid_n clock_n "uuid-0" "bob" stray_invite
  = create_conversation uuid_n clock_n
      {| cc_name := None; cc_is_group := false;
         cc_participant_ids := [r_sender_id stray_request] |} "bob"
      (update_status "accepted" "uuid-0" stray_invite).2
  ∧ ∃ conv w1,
      accept_chat_request uuid_n clock_n "uuid-0" "bob" stray_invite
      = (Return conv, w1)
      ∧ (∀ c, c ∈ conversations (supabase stray_invite) →
           filter (λ p, p_conversation_id p = c_id c)
             (conversation_participants (supabase w1))
           = filter (λ p, p_conversation_id p = c_id c)
               (conversation_participants (supabase stray_invite)))
      ∧ (∃ row, row ∈ conversations (supabase w1)
                ∧ c_id row = cr_id conv ∧ c_is_group row = false)
      ∧ participants_of (supabase w1) (cr_id conv)
        = {[ "bob"; r_sender_id stray_request ]}.
Proof.
  apply (accept_invite_without_conversation uuid_n clock_n "uuid-0" "bob"
           stray_invite stray_request []).
  - vm_compute. reflexivity.
  - reflexivity.
  - reflexivity.
  - reflexivity.
  - split; vm_compute; apply not_elem_of_nil.
Defined.

(** *** Witnesses of the further properties *)

Definition alice_token : event_data := {[ "token" := "alice" ]}.

Lemma authenticate_binds_witness :
  (authenticate token_is_user "sid-1" alice_token (boot registered)).1
  = Return (authenticated "alice")
  ∧ dict_get "alice"
      (connected_users
         (authenticate token_is_user "sid-1" alice_token (boot registered)).2)
    = Some "sid-1"
  ∧ dict_get "alice"
      (user_rooms
         (authenticate token_is_user "sid-1" alice_token (boot registered)).2)
    = Some []
  ∧ (∀ other, other ≠ "alice" →
       dict_get other
         (connected_users
            (authenticate token_is_user "sid-1" alice_token
               (boot registered)).2)
       = dict_get other (connected_users (boot registered)))
  ∧ trace (authenticate token_is_user "sid-1" alice_token (boot registered)).2
    = trace (boot registered)
      ++ [Emit "user_online" (P_user "alice") None None]
  ∧ supabase
      (authenticate token_is_user "sid-1" alice_token (boot registered)).2
    = supabase (boot registered).
Proof.
  apply (authenticate_binds token_is_user "sid-1" alice_token "alice" "alice"
           (boot registered)); reflexivity.
Defined.

(** A JWT check that takes no token. *)
Definition no_token_valid (token : string) : option string := None.

Lemma authenticate_refuses_witness :
  ∃ error,
    authenticate no_token_valid "sid-1" alice_token alice_online
    = (Return (auth_error error), alice_online).
Proof.
  apply (authenticate_refuses no_token_valid "sid-1" alice_token alice_online).
  intros token _ _. reflexivity.
Defined.

Lemma alice_online_one_entry :
  NoDup (keys (connected_users alice_online))
  ∧ NoDup (keys (user_rooms alice_online)).
Proof.
  split; vm_compute; apply NoDup_singleton.
Defined.

Lemma disconnect_first_bound_witness :
  (disconnect "sid-1" alice_online).1 = Return tt
  ∧ dict_get "alice" (connected_users (disconnect "sid-1" alice_online).2)
    = None
  ∧ dict_get "alice" (user_rooms (disconnect "sid-1" alice_online).2) = None
  ∧ trace (disconnect "sid-1" alice_online).2
    = trace alice_online ++ [Emit "user_offline" (P_user "alice") None None].
Proof.
  destruct (disconnect_first_bound "sid-1" alice_online "alice" eq_refl eq_refl
              (proj1 alice_online_one_entry) (proj2 alice_online_one_entry))
    as (H1 & H2 & H3 & _ & H5 & _).
  exact (conj H1 (conj H2 (conj H3 H5))).
Defined.

Definition room_data : event_data := {[ "room_id" := "uuid-1" ]}.

Lemma join_room_enrols_witness :
  ("uuid-1", "sid-1")
    ∈ sio_rooms (join_room true "sid-1" room_data alice_online).2
  ∧ (∃ rooms,
       dict_get "alice"
         (user_rooms (join_room true "sid-1" room_data alice_online).2)
       = Some rooms ∧ "uuid-1" ∈ rooms)
  ∧ connected_users (join_room true "sid-1" room_data alice_online).2
    = connected_users alice_online
  ∧ supabase (join_room true "sid-1" room_data alice_online).2
    = supabase alice_online
  ∧ trace (join_room true "sid-1" room_data alice_online).2
    = trace alice_online
  ∧ join_room false "sid-1" room_data alice_online
    = (HTTPException 500 "Internal Server Error", alice_online).
Proof.
  apply (join_room_enrols "sid-1" room_data "uuid-1" "alice" alice_online);
    reflexivity.
Defined.

Lemma leave_room_keeps_listing_witness :
  let joined := (join_room true "sid-1" room_data alice_online).2 in
  let left := (leave_room "sid-1" room_data joined).2 in
  ("uuid-1", "sid-1") ∈ sio_rooms joined
  ∧ (("uuid-1", "sid-1") ∉ sio_rooms left)
  ∧ user_rooms left = user_rooms joined
  ∧ ∃ rooms, dict_get "alice" (user_rooms left) = Some rooms ∧ "uuid-1" ∈ rooms.
Proof.
  apply (leave_room_keeps_listing "sid-1" room_data "uuid-1" "alice"
           alice_online); reflexivity.
Defined.

Lemma get_conversation_last_message_witness :
  ∃ view,
    (get_conversation "uuid-1" "bob" after_hello).1 = Return view
    ∧ match cr_last_message view with
      | None =>
          filter (λ m, m_conversation_id m = "uuid-1")
            (messages (supabase after_hello)) = []
      | Some last =>
          ∃ msg, msg ∈ messages (supabase after_hello)
                 ∧ m_conversation_id msg = "uuid-1"
                 ∧ mr_id last = m_id msg ∧ mr_content last = m_content msg
                 ∧ mr_created_at last = m_created_at msg
                 ∧ ∀ m, m ∈ messages (supabase after_hello) →
                        m_conversation_id m = "uuid-1" →
                        String.le (m_created_at m) (mr_created_at last)
      end.
Proof.
  eexists. split; [vm_compute; reflexivity|].
  apply (get_conversation_last_message "uuid-1" "bob" after_hello).
  vm_compute. reflexivity.
Defined.

Definition team : ConversationCreate :=
  {| cc_name := Some "team"; cc_is_group := true;
     cc_participant_ids := ["bob"; "alice"; "bob"] |}.

Lemma create_conversation_without_dedup_witness :
  ∃ view rows w1,
    create_conversation uuid_n clock_n team "alice" after_accept
    = (Return view, w1)
    ∧ conversations (supabase w1)
      = conversations (supabase after_accept)
        ++ [new_conversation uuid_n clock_n team "alice" after_accept]
    ∧ c_name (new_conversation uuid_n clock_n team "alice" after_accept)
      = (if cc_is_group team then cc_name team else None)
    ∧ conversation_participants (supabase w1)
      = conversation_participants (supabase after_accept) ++ rows
    ∧ NoDup (p_user_id <$> rows)
    ∧ (∀ member, member ∈ p_user_id <$> rows
                 ↔ member = "alice" ∨ member ∈ cc_participant_ids team)
    ∧ Forall (λ p, p_conversation_id p = uuid_n (uuid_calls after_accept)) rows.
Proof.
  apply (create_conversation_without_dedup uuid_n clock_n team "alice"
           after_accept).
  left. reflexivity.
Defined.

Lemma chat_request_only_receiver_witness :
  accept_chat_request uuid_n clock_n "uuid-0" "alice" stray_invite
  = (NotFoundError "Request not found", stray_invite)
  ∧ reject_chat_request "uuid-0" "alice" stray_invite
    = (NotFoundError "Request not found", stray_invite).
Proof.
  apply (chat_request_only_receiver uuid_n clock_n "uuid-0" "alice"
           stray_invite).
  vm_compute. reflexivity.
Defined.

Lemma accept_processed_request_refused_witness :
  accept_chat_request uuid_n clock_n "uuid-0" "bob" after_accept
  = (HTTPException 400 "Request already processed", after_accept).
Proof.
  apply (accept_processed_request_refused uuid_n clock_n "uuid-0" "bob"
           after_accept
           {| r_id := "uuid-0"; r_sender_id := "alice"; r_receiver_id := "bob";
              r_message := Some "hi"; r_status := "accepted";
              r_is_group_invite := false; r_conversation_id := None;
              r_created_at := "t-0" |} []).
  - vm_compute. reflexivity.
  - discriminate.
Defined.

(** Bob has two pending requests, one from alice and one from carol. *)
Definition two_requests : world :=
  run uuid_n clock_n token_is_user
    [alice_asks_bob;
     CreateChatRequest true
       {| qc_receiver_id := "bob"; qc_message := None;
          qc_is_group_invite := false; qc_conversation_id := None |} "carol"]
    (boot registered).

Lemma answered_request_not_listed_witness :
  ∃ requests,
    (get_chat_requests "bob"
       (reject_chat_request "uuid-0" "bob" two_requests).2).1
    = Return requests
    ∧ qr_id <$> requests = ["uuid-1"]
    ∧ "uuid-0" ∉ qr_id <$> requests.
Proof.
  eexists. split; [vm_compute; reflexivity|]. split; [reflexivity|].
  apply (answered_request_not_listed uuid_n clock_n "uuid-0" "bob"
           two_requests
           {| r_id := "uuid-0"; r_sender_id := "alice"; r_receiver_id := "bob";
              r_message := Some "hi"; r_status := "pending";
              r_is_group_invite := false; r_conversation_id := None;
              r_created_at := "t-0" |} []).
  - vm_compute. reflexivity.
  - vm_compute. reflexivity.
Defined.

(** Alice invites bob into a conversation that does not exist. *)
Definition dangling_invite : world :=
  run uuid_n clock_n token_is_user
    [CreateChatRequest true
       {| qc_receiver_id := "bob"; qc_message := None;
          qc_is_group_invite := true; qc_conversation_id := Some "gone" |}
       "alice"]
    (boot registered).

Lemma accept_group_invite_witness :
  let w1 := (accept_chat_request uuid_n clock_n "uuid-0" "bob"
               dangling_invite).2 in
  conversation_participants (supabase w1)
  = conversation_participants (supabase dangling_invite)
    ++ [ {| p_id := uuid_n (uuid_calls dangling_invite);
            p_conversation_id := "gone"; p_user_id := "bob";
            p_joined_at := clock_n (clock_calls dangling_invite) |} ]
  ∧ conversations (supabase w1) = conversations (supabase dangling_invite)
  ∧ chat_requests (supabase w1)
    = (λ r, if decide (r_id r = "uuid-0") then set_status "accepted" r else r)
        <$> chat_requests (supabase dangling_invite)
  ∧ match filter (λ c, c_id c = "gone")
            (conversations (supabase dangling_invite)) with
    | [] =>
        (accept_chat_request uuid_n clock_n "uuid-0" "bob" dangling_invite).1
        = NotFoundError "Conversation not found"
    | _ :: _ =>
        ∃ view,
          (accept_chat_request uuid_n clock_n "uuid-0" "bob" dangling_invite).1
          = Return view
          ∧ cr_id view = "gone"
    end.
Proof.
  apply (accept_group_invite uuid_n clock_n "uuid-0" "bob" dangling_invite
           {| r_id := "uuid-0"; r_sender_id := "alice"; r_receiver_id := "bob";
              r_message := None; r_status := "pending";
              r_is_group_invite := true; r_conversation_id := Some "gone";
              r_created_at := "t-0" |} [] "gone").
  - vm_compute. reflexivity.
  - reflexivity.
  - reflexivity.
  - reflexivity.
  - reflexivity.
Defined.

Lemma bob_in_conversation :
  is_participant (supabase after_accept) "uuid-1" "bob".
Proof.
  exists {| p_id := "uuid-3"; p_conversation_id := "uuid-1";
            p_user_id := "bob"; p_joined_at := "t-3" |}.
  split; [|by split]. vm_compute. right. left.
Defined.

Lemma alice_in_conversation :
  is_participant (supabase after_accept) "uuid-1" "alice".
Proof.
  exists {| p_id := "uuid-2"; p_conversation_id := "uuid-1";
            p_user_id := "alice"; p_joined_at := "t-2" |}.
  split; [|by split]. vm_compute. left.
Defined.

Lemma send_then_fetch_witness :
  ∃ msgs sent,
    get_messages "uuid-1" 50 0 "bob"
      (send_message uuid_n clock_n true hello_data "alice" after_accept).2
    = (Return msgs,
       (send_message uuid_n clock_n true hello_data "alice" after_accept).2)
    ∧ sent ∈ msgs
    ∧ mr_id sent = uuid_n (uuid_calls after_accept)
    ∧ mr_sender_id sent = "alice"
    ∧ mr_content sent = "hi"
    ∧ mr_read_by sent = ["alice"]
    ∧ length msgs
      = S (length (filter (λ m, m_conversation_id m = "uuid-1")
                     (messages (supabase after_accept)))).
Proof.
  apply (send_then_fetch uuid_n clock_n hello_data "alice" "bob" 50
           after_accept alice_in_conversation bob_in_conversation).
  vm_compute. discriminate.
Defined.

Definition bob_asks_alice : ChatRequestCreate :=
  {| qc_receiver_id := "alice"; qc_message := None;
     qc_is_group_invite := false; qc_conversation_id := None |}.

Lemma create_chat_request_notifies_witness :
  (∃ response,
     (create_chat_request uuid_n clock_n true bob_asks_alice "bob"
        alice_online).1 = Return response
     ∧ trace (create_chat_request uuid_n clock_n true bob_asks_alice "bob"
                alice_online).2
       = trace alice_online
         ++ Insert "chat_requests"
            :: match dict_get (qc_receiver_id bob_asks_alice)
                       (connected_users alice_online) with
               | Some sid =>
                   [Emit "new_chat_request" (P_chat_request response)
                      (Some sid) None]
               | None => []
               end)
  ∧ (create_chat_request uuid_n clock_n false bob_asks_alice "bob"
       alice_online).1
    = StoreError "Failed to create request"
  ∧ supabase (create_chat_request uuid_n clock_n false bob_asks_alice "bob"
                alice_online).2
    = supabase alice_online
  ∧ trace (create_chat_request uuid_n clock_n false bob_asks_alice "bob"
             alice_online).2
    = trace alice_online ++ [Insert "chat_requests"].
Proof.
  apply (create_chat_request_notifies uuid_n clock_n bob_asks_alice "bob"
           alice_online).
  reflexivity.
Defined.

Lemma presence_round_trip_witness :
  let w1 := (authenticate token_is_user "sid-1" alice_token
               (boot registered)).2 in
  let w2 := (disconnect "sid-1" w1).2 in
  ∃ online offline,
    (get_user "alice" "bob" w1).1 = Return online
    ∧ ur_is_online online = true
    ∧ (get_user "alice" "bob" w2).1 = Return offline
    ∧ ur_is_online offline = false.
Proof.
  apply (presence_round_trip token_is_user "sid-1" alice_token "alice" "alice"
           "bob" (boot registered)
           {| u_id := "alice"; u_email := "alice@example.org";
              u_username := "Alice"; u_password_hash := "hash-a";
              u_avatar_url := None; u_created_at := "t" |}
           []).
  - reflexivity.
  - reflexivity.
  - reflexivity.
  - reflexivity.
  - vm_compute. reflexivity.
  - intros uid s Hin. by apply not_elem_of_nil in Hin.
  - split; apply NoDup_nil_2.
Defined.
